(** * django-backbone: the generic REST view [BackboneAPIView]

    A shallow embedding of [backbone/views.py].  The view is glue code over
    Django: every call into the framework (ORM, forms, paginator, permission
    backend, JSON codec, URL resolver, translations) and into the
    repository's own [AllFieldsSerializer] is a field of the [Framework]
    class below; the view's own control flow is translated line by line into
    a small state-and-exception monad whose state is the database together
    with the trace of the framework calls made so far. *)

From Stdlib Require Import ZArith Ascii String List.
From stdpp Require Import base option strings list gmap pretty.

Local Open Scope string_scope.
Local Open Scope Z_scope.

(** ** Python data *)

(** Field values as they end up in a serialized record. *)
Inductive value : Type :=
| VNone
| VBool (b : bool)
| VInt (z : Z)
| VStr (s : string).

#[global] Instance value_eq_dec : EqDecision value.
Proof. solve_decision. Defined.

(** An attribute found on a model instance by [getattr(obj, name)]: either a
    callable (a method; [Callable r] returns [r] when called without
    arguments) or a plain value (a database field or a property). *)
Inductive attr : Type :=
| Callable (r : value)
| Plain (v : value).

(** A model instance: its primary key and its attribute dictionary. *)
Record Obj : Type := mkObj {
  obj_id : Z;
  obj_attrs : gmap string attr
}.

(** [getattr(obj, name)], [None] where Python's [hasattr] is false.  Every
    model instance carries its [id]. *)
Definition obj_getattr (obj : Obj) (name : string) : option attr :=
  if decide (name = "id") then Some (Plain (VInt (obj_id obj)))
  else obj_attrs obj !! name.

(** The [_meta] options of a model class that the view reads. *)
Record Model : Type := mkModel {
  app_label : string;
  object_name : string;
  module_name : string
}.

(** One entry of [display_fields]: a callable (a function object with its
    [__name__]) or a field name. *)
Inductive field : Type :=
| FCallable (name : string) (f : Obj -> value)
| FName (name : string).

(** A serialized record: the dictionary [data] built by [serialize]. *)
Abbreviation record := (gmap string value).

(** What the view hands to [json.dumps]. *)
Inductive payload : Type :=
| PRecord (d : record)
| PRecords (l : list record)
| PErrors (e : gmap string (list string)).

(** The [cls] argument of [json.dumps]. *)
Inductive encoder : Type :=
| JSONEncoder
| DjangoJSONEncoder.

(** The value of [request.GET.get('page', 1)]: the integer default or the
    string of the query parameter. *)
Inductive page_arg : Type :=
| PageInt (n : Z)
| PageStr (s : string).

(** Result of [Paginator(qs, per_page).page(number)]. *)
Inductive page_result : Type :=
| PageOk (object_list : list Obj)
| PageNotAnInteger
| EmptyPage.

(** ** Requests and responses *)

Record User : Type := mkUser {
  has_perm : string -> bool
}.

(** [body] is [None] on Django <= 1.3, where [hasattr(request, 'body')] is
    false and the payload is read from [raw_post_data]. *)
Record Request : Type := mkRequest {
  user : User;
  GET : gmap string string;
  body : option string;
  raw_post_data : string
}.

(** [content_type = None] stands for the framework's default content type. *)
Record Response : Type := mkResponse {
  status_code : Z;
  content : string;
  content_type : option string;
  headers : gmap string string
}.

Definition HttpResponse (content : string) (content_type : option string) (status : Z)
  : Response :=
  mkResponse status content content_type ∅.

Definition HttpResponseBadRequest (content : string) (content_type : option string)
  : Response :=
  HttpResponse content content_type 400.

Definition HttpResponseForbidden (content : string) : Response :=
  HttpResponse content None 403.

(** [response[name] = v]. *)
Definition set_header (name v : string) (r : Response) : Response :=
  mkResponse (status_code r) (content r) (content_type r) (<[name := v]> (headers r)).

Definition set_status (s : Z) (r : Response) : Response :=
  mkResponse s (content r) (content_type r) (headers r).

(** ** Python helpers *)

(** Truth value of the [id] keyword argument captured from the URL: [None]
    and the empty string are false. *)
Definition truthy_id (id : option string) : bool :=
  match id with
  | Some s => negb (String.eqb s "")
  | None => false
  end.

(** Truth value of a list-valued class attribute ([ordering], [fields]). *)
Definition truthy_list {A} (l : list A) : bool :=
  match l with
  | [] => false
  | _ :: _ => true
  end.

(** [c.lower()] on a byte of a Python 2 [str]. *)
Definition lower_ascii (c : ascii) : ascii :=
  let n := nat_of_ascii c in
  if andb (Nat.leb 65 n) (Nat.leb n 90) then ascii_of_nat (n + 32) else c.

(** [s.lower()]. *)
Fixpoint lower (s : string) : string :=
  match s with
  | EmptyString => EmptyString
  | String c s' => String (lower_ascii c) (lower s')
  end.

(** [s.split('.')]. *)
Fixpoint split_dots_aux (acc : string) (s : string) : list string :=
  match s with
  | EmptyString => [String.rev acc]
  | String c s' =>
      if Ascii.eqb c "."%char then String.rev acc :: split_dots_aux EmptyString s'
      else split_dots_aux (String c acc) s'
  end.

Definition split_dots (s : string) : list string := split_dots_aux EmptyString s.

(** Python's ordering of lists of strings: [a >= b]. *)
Fixpoint list_ge (a b : list string) : bool :=
  match a, b with
  | _, [] => true
  | [], _ :: _ => false
  | x :: a', y :: b' =>
      match String.compare x y with
      | Lt => false
      | Gt => true
      | Eq => list_ge a' b'
      end
  end.

(** ** The framework *)

(** The keyword arguments [defaults] that [get_form_instance] passes to
    [modelform_factory]: a key is present only when it was set. *)
Record form_defaults : Type := mkDefaults {
  d_form : option string;
  d_fields : option (list string)
}.

(** A bound model form, as far as the view uses it.  [save] writes the
    instance to the database and returns it. *)
Record Form (DB : Type) : Type := mkForm {
  is_valid : bool;
  cleaned_data : record;
  errors : gmap string (list string);
  save : DB -> Obj * DB
}.
Arguments mkForm {DB}.
Arguments is_valid {DB}.
Arguments cleaned_data {DB}.
Arguments errors {DB}.
Arguments save {DB}.

(** Everything the view calls and does not define: the framework, the
    standard [json] module, and the repository's [AllFieldsSerializer]. *)
Class Framework : Type := {
  (** the state of the database, and a decoded request body *)
  DB : Type;
  Json : Type;
  (** [self.model._default_manager.all()] and [qs.order_by] on the names of
      [ordering] *)
  all_objects : DB -> list Obj;
  order_by : list string -> list Obj -> list Obj;
  (** the lookup [id=id] of [get_object_or_404]; [None] is [Http404] *)
  get_by_id : list Obj -> string -> option Obj;
  (** [obj.delete()] *)
  delete_obj : Obj -> DB -> DB;
  (** [json.loads]; [None] is [ValueError] *)
  json_loads : string -> option Json;
  (** [modelform_factory(model, **defaults)(data=data, instance=instance)] *)
  modelform_factory : Model -> form_defaults -> Json -> option Obj -> Form DB;
  (** [Paginator(qs, per_page).page(number)] *)
  paginator_page : list Obj -> Z -> page_arg -> page_result;
  (** [serializer.getvalue()[0]['fields']] after
      [AllFieldsSerializer().serialize([obj], fields=fields)] *)
  all_fields_serializer : Obj -> list string -> record;
  (** [json.dumps(data, cls=cls, **params)] and [json.__version__] *)
  json_dumps_impl : payload -> encoder -> gmap string value -> string;
  json_version : string;
  (** [reverse(url_name, args=args)] *)
  reverse : string -> list Z -> string;
  (** the translation [_] *)
  ugettext : string -> string
}.

(** ** Effects *)

(** The framework calls a handler makes, in the order it makes them. *)
Inductive event : Type :=
| EvHasPerm (perm : string)
| EvGetObject (id : string)
| EvQuerySet
| EvJsonLoads (raw : string)
| EvForm (instance : option Obj)
| EvPermForData (cleaned : record)
| EvSave
| EvDelete (obj : Obj)
| EvJsonDumps (p : payload).

(** The exceptions that leave a handler.  [TypeError] is the call of a
    view attribute that is not callable; its message names the attribute
    (Python's names the type of its value). *)
Inductive exn : Type :=
| Http404
| AttributeError (msg : string)
| TypeError (msg : string).

Inductive result (A : Type) : Type :=
| Ok (a : A)
| Raise (e : exn).
Arguments Ok {A}.
Arguments Raise {A}.

Section Effects.
Context `{Framework}.

Record World : Type := mkWorld {
  db : DB;
  trace : list event
}.

Definition M (A : Type) : Type := World -> result A * World.

Definition ret {A} (a : A) : M A := fun w => (Ok a, w).

Definition bind {A B} (m : M A) (f : A -> M B) : M B :=
  fun w =>
    match m w with
    | (Ok a, w') => f a w'
    | (Raise e, w') => (Raise e, w')
    end.

Definition raise {A} (e : exn) : M A := fun w => (Raise e, w).

Definition emit (e : event) : M unit :=
  fun w => (Ok tt, mkWorld (db w) (trace w ++ [e])%list).

Definition read_db : M DB := fun w => (Ok (db w), w).

Definition write_db (d : DB) : M unit :=
  fun w => (Ok tt, mkWorld d (trace w)).

Definition lift {A} (r : result A) : M A := fun w => (r, w).

End Effects.

Declare Scope view_scope.
Delimit Scope view_scope with view.
Notation "'do' x <- m ; k" := (bind m (fun x => k))
  (at level 10, x name, m at level 100, k at level 200) : view_scope.
Notation "'run' m ; k" := (bind m (fun _ => k))
  (at level 10, m at level 100, k at level 200) : view_scope.

(** ** The view *)

Module BackboneAPIView.

(** The class attributes of a view (a subclass of [BackboneAPIView]).
    [form] is the name of the form class, when one is set.  [methods] are
    the callables that [getattr(self, name)] finds on the view object under
    the name of a display field: the methods a subclass defines to compute
    display fields, each taking the model instance.  A display field named
    after a callable that every view inherits (a handler or helper of this
    class or of the framework's [View], the [model] class, a [form] class)
    would call it with the model instance in place of its own arguments;
    such names are outside this model unless [methods] lists them. *)
Record View : Type := mkView {
  model : Model;
  display_fields : list field;
  fields : list string;
  form : option string;
  ordering : option (list string);
  paginate_by : option Z;
  methods : gmap string (Obj -> value)
}.

(** What [getattr(self, name)] finds on the view. *)
Inductive view_attr : Type :=
| VMethod (m : Obj -> value)
| VNotCallable.

(** The class attributes of lines 17-21 that hold a list, a number or
    [None] on every view, and [form] as long as it is [None]:
    [hasattr(self, name)] is true for them and calling them is a
    [TypeError]. *)
Definition config_attrs (v : View) : list string :=
  ["display_fields"; "fields"; "ordering"; "paginate_by"]
  ++ match form v with
     | None => ["form"]
     | Some _ => []
     end.

(** [getattr(self, name)], [None] where [hasattr(self, name)] is false. *)
Definition view_getattr (v : View) (name : string) : option view_attr :=
  if bool_decide (name ∈ config_attrs v) then Some VNotCallable
  else VMethod <$> methods v !! name.

Definition permission_denied : string :=
  "You do not have permission to perform this action.".

Definition unparsable_body : string := "Unable to parse JSON request body.".

Definition json_content_type : string := "application/json".

(** [request.body if hasattr(request, 'body') else request.raw_post_data] *)
Definition request_body (request : Request) : string :=
  match body request with
  | Some b => b
  | None => raw_post_data request
  end.

(** The request methods the class has a handler for. *)
Inductive verb : Type :=
| Get
| Post
| Put
| Delete.

Section Handlers.
Context `{Framework}.
Local Open Scope view_scope.

(** [queryset]: the default manager's objects, ordered when [ordering] is
    set and not empty. *)
Definition queryset (v : View) (d : DB) : list Obj :=
  let qs := all_objects d in
  match ordering v with
  | Some o => if truthy_list o then order_by o qs else qs
  | None => qs
  end.

(** [get_object_or_404(self.queryset(request), id=id)] *)
Definition get_object_or_404 (v : View) (id : string) : M Obj :=
  run emit (EvGetObject id);
  do d <- read_db;
  match get_by_id (queryset v d) id with
  | Some obj => ret obj
  | None => raise Http404
  end.

(** One turn of the loop of [serialize] (lines 237-249).  [remaining] keeps,
    next to each name, the plain attribute value that [getattr(obj, field)]
    read at line 243 and reads again at line 260. *)
Definition serialize_field (v : View) (obj : Obj)
    (st : record * list (string * value)) (f : field)
  : result (record * list (string * value)) :=
  let '(data, remaining) := st in
  match f with
  | FCallable name g => Ok (<[name := g obj]> data, remaining)
  | FName name =>
      match view_getattr v name with
      | Some (VMethod m) => Ok (<[name := m obj]> data, remaining)
      | Some VNotCallable => Raise (TypeError ("view attribute is not callable: " ++ name))
      | None =>
          match obj_getattr obj name with
          | Some (Callable r) => Ok (<[name := r]> data, remaining)
          | Some (Plain x) => Ok (data, (remaining ++ [(name, x)])%list)
          | None => Raise (AttributeError ("Invalid field: " ++ name))
          end
      end
  end.

Fixpoint serialize_loop (v : View) (obj : Obj) (fs : list field)
    (st : record * list (string * value))
  : result (record * list (string * value)) :=
  match fs with
  | [] => Ok st
  | f :: fs' =>
      match serialize_field v obj st f with
      | Ok st' => serialize_loop v obj fs' st'
      | Raise e => Raise e
      end
  end.

(** Lines 256-260: the remaining names that are not yet keys of [data] take
    the raw attribute. *)
Definition add_properties (data : record) (remaining : list (string * value)) : record :=
  foldl (fun d p => <[p.1 := p.2]> d) data
        (List.filter (fun p => match data !! p.1 with None => true | Some _ => false end)
                     remaining).

(** [serialize(obj, fields)] *)
Definition serialize (v : View) (obj : Obj) (fs : list field) : result record :=
  match serialize_loop v obj fs (∅, []) with
  | Raise e => Raise e
  | Ok (data, remaining) =>
      let data := all_fields_serializer obj (remaining.*1) ∪ data in
      Ok (add_properties data remaining)
  end.

(** [json_dumps(data, **options)] *)
Definition json_dumps (data : payload) (options : gmap string value) : string :=
  let params : gmap string value := {[ "sort_keys" := VBool true; "indent" := VInt 2 ]} in
  let params := options ∪ params in
  let params :=
    if list_ge (split_dots json_version) ["2"; "1"; "3"]
    then ({[ "use_decimal" := VBool false ]} : gmap string value) ∪ params
    else params in
  json_dumps_impl data DjangoJSONEncoder params.

(** A call [self.json_dumps(data)] made by a handler. *)
Definition dumps (data : payload) : M string :=
  run emit (EvJsonDumps data);
  ret (json_dumps data ∅).

(** [get_object_detail] *)
Definition get_object_detail (v : View) (request : Request) (obj : Obj) : M Response :=
  do data <- lift (serialize v obj (FName "id" :: display_fields v));
  do s <- dumps (PRecord data);
  ret (HttpResponse s (Some json_content_type) 200).

(** The list comprehension of lines 66-68. *)
Fixpoint serialize_all (v : View) (qs : list Obj) : result (list record) :=
  match qs with
  | [] => Ok []
  | obj :: qs' =>
      match serialize v obj (FName "id" :: display_fields v) with
      | Raise e => Raise e
      | Ok r =>
          match serialize_all v qs' with
          | Raise e => Raise e
          | Ok rs => Ok (r :: rs)
          end
      end
  end.

(** [request.GET.get('page', 1)] *)
Definition page_param (request : Request) : page_arg :=
  match GET request !! "page" with
  | Some s => PageStr s
  | None => PageInt 1
  end.

Definition render_collection (v : View) (qs : list Obj) : M Response :=
  do data <- lift (serialize_all v qs);
  do s <- dumps (PRecords data);
  ret (HttpResponse s (Some json_content_type) 200).

(** [get_collection] *)
Definition get_collection (v : View) (request : Request) : M Response :=
  run emit EvQuerySet;
  do d <- read_db;
  let qs := queryset v d in
  match paginate_by v with
  | Some per_page =>
      match paginator_page qs per_page (page_param request) with
      | PageOk object_list => render_collection v object_list
      | PageNotAnInteger =>
          ret (HttpResponseBadRequest
                 (ugettext "Invalid `page` parameter: Not a valid integer.") None)
      | EmptyPage =>
          ret (HttpResponseBadRequest
                 (ugettext "Invalid `page` parameter: Out of range.") None)
      end
  | None => render_collection v qs
  end.

(** [get] *)
Definition get (v : View) (request : Request) (id : option string) : M Response :=
  match id with
  | Some i =>
      if truthy_id id then
        do obj <- get_object_or_404 v i;
        get_object_detail v request obj
      else get_collection v request
  | None => get_collection v request
  end.

(** The permission strings of lines 187-189, 206-208 and 225-227. *)
Definition perm_string (v : View) (action : string) : string :=
  app_label (model v) ++ "." ++ action ++ "_" ++ lower (object_name (model v)).

(** [has_add_permission] *)
Definition has_add_permission (v : View) (request : Request) : M bool :=
  let perm := perm_string v "add" in
  run emit (EvHasPerm perm);
  ret (has_perm (user request) perm).

(** [has_add_permission_for_data] *)
Definition has_add_permission_for_data (v : View) (request : Request)
    (cleaned : record) : M bool :=
  run emit (EvPermForData cleaned);
  ret true.

(** [has_update_permission] *)
Definition has_update_permission (v : View) (request : Request) (obj : Obj) : M bool :=
  let perm := perm_string v "change" in
  run emit (EvHasPerm perm);
  ret (has_perm (user request) perm).

(** [has_update_permission_for_data] *)
Definition has_update_permission_for_data (v : View) (request : Request)
    (cleaned : record) : M bool :=
  run emit (EvPermForData cleaned);
  ret true.

(** [has_delete_permission] *)
Definition has_delete_permission (v : View) (request : Request) (obj : Obj) : M bool :=
  let perm := perm_string v "delete" in
  run emit (EvHasPerm perm);
  ret (has_perm (user request) perm).

(** The dictionary [defaults] of [get_form_instance]. *)
Definition form_kwargs (v : View) : form_defaults :=
  mkDefaults (form v) (if truthy_list (fields v) then Some (fields v) else None).

(** [get_form_instance] *)
Definition get_form_instance (v : View) (request : Request) (data : Json)
    (instance : option Obj) : M (Form DB) :=
  run emit (EvForm instance);
  ret (modelform_factory (model v) (form_kwargs v) data instance).

(** [form.save()]: the instance is written and handed back. *)
Definition form_save (form : Form DB) : M Obj :=
  run emit EvSave;
  do d <- read_db;
  let '(obj, d') := save form d in
  run write_db d';
  ret obj.

(** The URL name of line 106. *)
Definition detail_url_name (v : View) : string :=
  "backbone:" ++ app_label (model v) ++ "_" ++ module_name (model v) ++ "_detail".

(** [add_object] *)
Definition add_object (v : View) (request : Request) : M Response :=
  let raw := request_body request in
  run emit (EvJsonLoads raw);
  match json_loads raw with
  | None => ret (HttpResponseBadRequest (ugettext unparsable_body) None)
  | Some data =>
      do form <- get_form_instance v request data None;
      if is_valid form then
        do allowed <- has_add_permission_for_data v request (cleaned_data form);
        if negb allowed then ret (HttpResponseForbidden (ugettext permission_denied))
        else
          do obj <- form_save form;
          do response <- get_object_detail v request obj;
          let response := set_status 201 response in
          ret (set_header "Location" (reverse (detail_url_name v) [obj_id obj]) response)
      else
        do s <- dumps (PErrors (errors form));
        ret (HttpResponseBadRequest s (Some json_content_type))
  end.

(** [post] *)
Definition post (v : View) (request : Request) (id : option string) : M Response :=
  if truthy_id id then ret (HttpResponseForbidden "")
  else
    do allowed <- has_add_permission v request;
    if negb allowed then ret (HttpResponseForbidden (ugettext permission_denied))
    else add_object v request.

(** [update_object].  [form.save()] writes the very instance [obj] the form
    was bound to, so the object serialized at line 144 is the saved one. *)
Definition update_object (v : View) (request : Request) (obj : Obj) : M Response :=
  let raw := request_body request in
  run emit (EvJsonLoads raw);
  match json_loads raw with
  | None => ret (HttpResponseBadRequest (ugettext unparsable_body) None)
  | Some data =>
      do form <- get_form_instance v request data (Some obj);
      if is_valid form then
        do allowed <- has_update_permission_for_data v request (cleaned_data form);
        if negb allowed then ret (HttpResponseForbidden (ugettext permission_denied))
        else
          do saved <- form_save form;
          get_object_detail v request saved
      else
        do s <- dumps (PErrors (errors form));
        ret (HttpResponseBadRequest s (Some json_content_type))
  end.

(** [put] *)
Definition put (v : View) (request : Request) (id : option string) : M Response :=
  match id with
  | Some i =>
      if truthy_id id then
        do obj <- get_object_or_404 v i;
        do allowed <- has_update_permission v request obj;
        if negb allowed then ret (HttpResponseForbidden (ugettext permission_denied))
        else update_object v request obj
      else ret (HttpResponseForbidden "")
  | None => ret (HttpResponseForbidden "")
  end.

(** [delete_object] *)
Definition delete_object (v : View) (request : Request) (obj : Obj) : M Response :=
  run emit (EvDelete obj);
  do d <- read_db;
  run write_db (delete_obj obj d);
  ret (HttpResponse "" None 204).

(** [delete] *)
Definition delete (v : View) (request : Request) (id : option string) : M Response :=
  match id with
  | Some i =>
      if truthy_id id then
        do obj <- get_object_or_404 v i;
        do allowed <- has_delete_permission v request obj;
        if negb allowed then ret (HttpResponseForbidden (ugettext permission_denied))
        else delete_object v request obj
      else ret (HttpResponseForbidden "")
  | None => ret (HttpResponseForbidden "")
  end.

(** The framework's [View.dispatch] calls the handler named after the
    request method, with the [id] captured from the URL. *)
Definition dispatch (v : View) (m : verb) (request : Request) (id : option string)
  : M Response :=
  match m with
  | Get => get v request id
  | Post => post v request id
  | Put => put v request id
  | Delete => delete v request id
  end.

End Handlers.
End BackboneAPIView.

(** * Vocabulary of the statements *)

Import BackboneAPIView.

Section Vocabulary.
Context `{Framework}.

(** The 403 answer of a failed permission check. *)
Definition denied : Response := HttpResponseForbidden (ugettext permission_denied).

(** The 400 answer to a body that [json.loads] rejects. *)
Definition bad_json : Response :=
  HttpResponseBadRequest (ugettext unparsable_body) None.

(** The 400 answer that carries the errors of an invalid form. *)
Definition form_errors (form : Form DB) : Response :=
  HttpResponseBadRequest (json_dumps (PErrors (errors form)) ∅) (Some json_content_type).

(** The 200 answer that carries a JSON payload. *)
Definition json_ok (p : payload) : Response :=
  HttpResponse (json_dumps p ∅) (Some json_content_type) 200.

(** The response to a creation whose new object serializes. *)
Definition created (v : View) (obj : Obj) (rec : record) : Response :=
  {| status_code := 201;
     content := json_dumps (PRecord rec) ∅;
     content_type := Some json_content_type;
     headers := {[ "Location" := reverse (detail_url_name v) [obj_id obj] ]} |}.

(** The form [get_form_instance] binds to the decoded body. *)
Definition bound_form (v : View) (data : Json) (instance : option Obj) : Form DB :=
  modelform_factory (model v) (form_kwargs v) data instance.

(** The names serialized for every record: [['id'] + list(display_fields)]. *)
Definition shown (v : View) : list field := FName "id" :: display_fields v.

(** A computation [extends] the trace when it appends to it and never
    rewrites what was logged before. *)
Definition extends {A} (m : M A) : Prop :=
  forall w, exists t, trace (m w).2 = (trace w ++ t)%list.

(** The events a handler logs before it looks at the decoded body. *)
Definition before_form (e : event) : Prop :=
  match e with
  | EvHasPerm _ | EvGetObject _ | EvJsonLoads _ => True
  | _ => False
  end.






End Vocabulary.

(** The five operations of the specification. *)
Inductive operation : Type :=
| ListRecords
| RecordDetail
| CreateRecord
| UpdateRecord
| DeleteRecord.

(** The operation the specification assigns to a request method, with or
    without an id. *)
Definition operation_of (m : verb) (with_id : bool) : option operation :=
  match m, with_id with
  | Get, false => Some ListRecords
  | Get, true => Some RecordDetail
  | Post, false => Some CreateRecord
  | Put, true => Some UpdateRecord
  | Delete, true => Some DeleteRecord
  | _, _ => None
  end.

Definition all_requests : list (verb * bool) :=
  [(Get, false); (Get, true); (Post, false); (Post, true);
   (Put, false); (Put, true); (Delete, false); (Delete, true)].

(** The action whose permission gates a request method; reads have none. *)
Definition verb_action (m : verb) : option string :=
  match m with
  | Get => None
  | Post => Some "add"
  | Put => Some "change"
  | Delete => Some "delete"
  end.

(** The key a field of the list leaves in the record: [field.__name__] or
    the name itself. *)
Definition field_name (f : field) : string :=
  match f with
  | FCallable name _ => name
  | FName name => name
  end.

(** The calls of a request that only reads. *)
Definition read_event (e : event) : Prop :=
  match e with
  | EvGetObject _ | EvQuerySet | EvJsonDumps _ => True
  | _ => False
  end.

(** ** The handlers in one step

    The answer, the database and the calls of a handler, written out case
    by case; [dispatch_outcome] below proves that the handlers compute
    exactly this, and the case analyses of the later proofs go through it. *)
Section Outcomes.
Context `{Framework}.

Definition run_of (A : Type) : Type := result A * DB * list event.

(** [add_object] (no instance) and [update_object] (the instance). *)
Definition submit_outcome (v : View) (request : Request) (instance : option Obj)
    (d : DB) : run_of Response :=
  let raw := request_body request in
  match json_loads raw with
  | None => (Ok bad_json, d, [EvJsonLoads raw])
  | Some data =>
      let form := bound_form v data instance in
      if is_valid form then
        let saved := save form d in
        let calls := [EvJsonLoads raw; EvForm instance;
                      EvPermForData (cleaned_data form); EvSave] in
        match serialize v saved.1 (shown v) with
        | Ok rec =>
            (Ok (match instance with
                 | None => created v saved.1 rec
                 | Some _ => json_ok (PRecord rec)
                 end),
             saved.2, (calls ++ [EvJsonDumps (PRecord rec)])%list)
        | Raise e => (Raise e, saved.2, calls)
        end
      else
        (Ok (form_errors form), d,
         [EvJsonLoads raw; EvForm instance; EvJsonDumps (PErrors (errors form))])
  end.

Definition render_outcome (v : View) (objs : list Obj) (d : DB) : run_of Response :=
  match serialize_all v objs with
  | Ok recs => (Ok (json_ok (PRecords recs)), d, [EvQuerySet; EvJsonDumps (PRecords recs)])
  | Raise e => (Raise e, d, [EvQuerySet])
  end.

(** [get_collection] *)
Definition collection_outcome (v : View) (request : Request) (d : DB)
  : run_of Response :=
  match paginate_by v with
  | None => render_outcome v (queryset v d) d
  | Some per_page =>
      match paginator_page (queryset v d) per_page (page_param request) with
      | PageOk objs => render_outcome v objs d
      | PageNotAnInteger =>
          (Ok (HttpResponseBadRequest
                 (ugettext "Invalid `page` parameter: Not a valid integer.") None),
           d, [EvQuerySet])
      | EmptyPage =>
          (Ok (HttpResponseBadRequest
                 (ugettext "Invalid `page` parameter: Out of range.") None),
           d, [EvQuerySet])
      end
  end.

(** A handler on the object of the id, once fetched. *)
Definition on_object (v : View) (m : verb) (request : Request) (i : string)
    (obj : Obj) (d : DB) : run_of Response :=
  match m with
  | Get =>
      match serialize v obj (shown v) with
      | Ok rec => (Ok (json_ok (PRecord rec)), d, [EvGetObject i; EvJsonDumps (PRecord rec)])
      | Raise e => (Raise e, d, [EvGetObject i])
      end
  | Post => (Ok (HttpResponseForbidden ""), d, [])
  | Put =>
      let perm := perm_string v "change" in
      if has_perm (user request) perm then
        let '(r, d', t) := submit_outcome v request (Some obj) d in
        (r, d', (EvGetObject i :: EvHasPerm perm :: t))
      else (Ok denied, d, [EvGetObject i; EvHasPerm perm])
  | Delete =>
      let perm := perm_string v "delete" in
      if has_perm (user request) perm then
        (Ok (HttpResponse "" None 204), delete_obj obj d,
         [EvGetObject i; EvHasPerm perm; EvDelete obj])
      else (Ok denied, d, [EvGetObject i; EvHasPerm perm])
  end.

(** A handler on the collection. *)
Definition on_collection (v : View) (m : verb) (request : Request) (d : DB)
  : run_of Response :=
  match m with
  | Get => collection_outcome v request d
  | Post =>
      let perm := perm_string v "add" in
      if has_perm (user request) perm then
        let '(r, d', t) := submit_outcome v request None d in
        (r, d', (EvHasPerm perm :: t))
      else (Ok denied, d, [EvHasPerm perm])
  | Put | Delete => (Ok (HttpResponseForbidden ""), d, [])
  end.

Definition outcome (v : View) (m : verb) (request : Request) (id : option string)
    (d : DB) : run_of Response :=
  match id with
  | Some i =>
      if truthy_id id then
        match m with
        | Post => (Ok (HttpResponseForbidden ""), d, [])
        | _ =>
            match get_by_id (queryset v d) i with
            | Some obj => on_object v m request i obj d
            | None => (Raise Http404, d, [EvGetObject i])
            end
        end
      else on_collection v m request d
  | None => on_collection v m request d
  end.

End Outcomes.

(** * A small framework to run the view on *)

(** An in-memory rendition of the framework calls, and a sample shop, used
    to evaluate the handlers on concrete requests. *)
Module Demo.

(** [int(s)] for a string of decimal digits. *)
Fixpoint digits (s : string) (acc : Z) : option Z :=
  match s with
  | EmptyString => Some acc
  | String c s' =>
      let n := nat_of_ascii c in
      if andb (Nat.leb 48 n) (Nat.leb n 57)
      then digits s' (10 * acc + Z.of_nat (n - 48))
      else None
  end.

Definition parse_int (s : string) : option Z :=
  match s with
  | EmptyString => None
  | _ => digits s 0
  end.

Fixpoint insert_by_id (o : Obj) (l : list Obj) : list Obj :=
  match l with
  | [] => [o]
  | x :: l' => if obj_id o <=? obj_id x then o :: x :: l' else x :: insert_by_id o l'
  end.

Definition sort_by_id (l : list Obj) : list Obj := foldr insert_by_id [] l.

(** Orders by primary key, descending for ['-id']. *)
Definition ordered (o : list string) (qs : list Obj) : list Obj :=
  match o with
  | ["-id"] => rev (sort_by_id qs)
  | _ => sort_by_id qs
  end.

Definition find_id (qs : list Obj) (id : string) : option Obj :=
  match parse_int id with
  | Some k => List.find (fun o => obj_id o =? k) qs
  | None => None
  end.

Definition remove_row (o : Obj) (d : list Obj) : list Obj :=
  List.filter (fun x => negb (obj_id x =? obj_id o)) d.

Definition quote : string := String "034"%char EmptyString.

(** The body [{"name": "Rex"}]. *)
Definition body_rex : string :=
  "{" ++ quote ++ "name" ++ quote ++ ": " ++ quote ++ "Rex" ++ quote ++ "}".

(** A decoder that knows two JSON documents and rejects every other body. *)
Definition decode (raw : string) : option record :=
  if String.eqb raw "{}" then Some ∅
  else if String.eqb raw body_rex then Some {[ "name" := VStr "Rex" ]}
  else None.

Definition next_id (d : list Obj) : Z :=
  1 + foldr (fun o acc => Z.max (obj_id o) acc) 0 d.

(** The attributes of a row before the form fills it in. *)
Definition blank : gmap string attr :=
  {[ "name" := Plain (VStr ""); "price" := Plain (VInt 0);
     "ordering" := Plain (VInt 0); "label" := Callable (VStr "new") ]}.

(** A model form with one required field, [name].  Saving without an
    instance appends a new row; saving an instance replaces its row. *)
Definition product_form (m : Model) (defaults : form_defaults) (data : record)
    (instance : option Obj) : Form (list Obj) :=
  let cleaned : record :=
    match d_fields defaults with
    | Some fs => filter (fun kv => kv.1 ∈ fs) data
    | None => data
    end in
  let valid :=
    match cleaned !! "name" with
    | Some (VStr s) => negb (String.eqb s "")
    | _ => false
    end in
  {| is_valid := valid;
     cleaned_data := if valid then cleaned else ∅;
     errors := if valid then ∅ else {[ "name" := ["This field is required."] ]};
     save := fun d =>
       match instance with
       | None =>
           let o := mkObj (next_id d) ((Plain <$> cleaned) ∪ blank) in
           (o, (d ++ [o])%list)
       | Some old =>
           let o := mkObj (obj_id old) ((Plain <$> cleaned) ∪ obj_attrs old) in
           (o, (fun x => if obj_id x =? obj_id old then o else x) <$> d)
       end |}.

(** Pages of [per_page] objects, numbered from 1, without orphans. *)
Definition page_of (qs : list Obj) (per_page : Z) (number : page_arg)
  : page_result :=
  match (match number with PageInt k => Some k | PageStr s => parse_int s end) with
  | None => PageNotAnInteger
  | Some k =>
      if orb (k <? 1) (per_page <? 1) then EmptyPage
      else
        let count := Z.of_nat (length qs) in
        let num_pages := Z.max 1 ((count + per_page - 1) / per_page) in
        if num_pages <? k then EmptyPage
        else PageOk (take (Z.to_nat per_page) (drop (Z.to_nat ((k - 1) * per_page)) qs))
  end.

(** Emits the selected plain attributes stored on the instance; the primary
    key is not among them. *)
Definition stored_fields (obj : Obj) (fs : list string) : record :=
  omap (fun a => match a with Plain x => Some x | Callable _ => None end)
       (filter (fun kv => kv.1 ∈ fs) (obj_attrs obj)).

Definition render_value (x : value) : string :=
  match x with
  | VNone => "null"
  | VBool true => "true"
  | VBool false => "false"
  | VInt z => pretty z
  | VStr s => quote ++ s ++ quote
  end.

Fixpoint insert_key {A} (p : string * A) (l : list (string * A)) : list (string * A) :=
  match l with
  | [] => [p]
  | x :: l' =>
      match String.compare p.1 x.1 with
      | Gt => x :: insert_key p l'
      | _ => p :: x :: l'
      end
  end.

Definition items {A} (sorted : bool) (d : gmap string A) : list (string * A) :=
  if sorted then foldr insert_key [] (map_to_list d) else map_to_list d.

Fixpoint join (sep : string) (l : list string) : string :=
  match l with
  | [] => ""
  | [x] => x
  | x :: l' => x ++ sep ++ join sep l'
  end.

Definition render_object {A} (sorted : bool) (f : A -> string) (d : gmap string A) : string :=
  "{" ++ join ", " ((fun p => quote ++ p.1 ++ quote ++ ": " ++ f p.2) <$> items sorted d) ++ "}".

Definition render_list {A} (f : A -> string) (l : list A) : string :=
  "[" ++ join ", " (f <$> l) ++ "]".

(** Prints on one line, with the keys in order when [sort_keys] is set. *)
Definition render (p : payload) (cls : encoder) (params : gmap string value)
  : string :=
  let sorted := match params !! "sort_keys" with Some (VBool b) => b | _ => false end in
  match p with
  | PRecord d => render_object sorted render_value d
  | PRecords l => render_list (render_object sorted render_value) l
  | PErrors e =>
      render_object sorted (render_list (fun s => quote ++ s ++ quote)) e
  end.

Definition url_for (name : string) (args : list Z) : string :=
  "/" ++ name ++ "/" ++ join "/" (pretty <$> args).

#[export] Instance framework : Framework := {|
  DB := list Obj;
  Json := record;
  all_objects := fun d => d;
  order_by := ordered;
  get_by_id := find_id;
  delete_obj := remove_row;
  json_loads := decode;
  modelform_factory := product_form;
  paginator_page := page_of;
  all_fields_serializer := stored_fields;
  json_dumps_impl := render;
  json_version := "2.0.9";
  reverse := url_for;
  ugettext := fun s => s
|}.

(** ** A sample shop *)

Definition product : Model := mkModel "shop" "Product" "product".

Definition tea : Obj :=
  mkObj 1 {[ "name" := Plain (VStr "Tea"); "price" := Plain (VInt 4);
             "ordering" := Plain (VInt 20); "label" := Callable (VStr "Tea, 4") ]}.

Definition mug : Obj :=
  mkObj 2 {[ "name" := Plain (VStr "Mug"); "price" := Plain (VInt 9);
             "ordering" := Plain (VInt 10); "label" := Callable (VStr "Mug, 9") ]}.

Definition pot : Obj :=
  mkObj 3 {[ "name" := Plain (VStr "Pot"); "price" := Plain (VInt 30);
             "ordering" := Plain (VInt 30); "label" := Callable (VStr "Pot, 30") ]}.

Definition shop : list Obj := [mug; tea; pot].

(** The display method of the view: whether the product costs less than 5. *)
Definition is_cheap (o : Obj) : value :=
  match obj_attrs o !! "price" with
  | Some (Plain (VInt z)) => VBool (z <? 5)
  | _ => VNone
  end.

Definition product_view : View :=
  {| model := product;
     display_fields := [FName "name"; FName "price"; FName "label"; FName "is_cheap"];
     fields := ["name"];
     form := None;
     ordering := Some ["id"];
     paginate_by := None;
     methods := {[ "is_cheap" := is_cheap ]} |}.

(** The same view, two products per page. *)
Definition paged_view : View :=
  {| model := product;
     display_fields := [FName "name"];
     fields := ["name"];
     form := None;
     ordering := Some ["id"];
     paginate_by := Some 2;
     methods := ∅ |}.

(** A view that shows the [ordering] column of the products and leaves the
    class attribute [ordering] at its default, [None]. *)
Definition window_view : View :=
  {| model := product;
     display_fields := [FName "name"; FName "ordering"];
     fields := ["name"];
     form := None;
     ordering := None;
     paginate_by := None;
     methods := ∅ |}.

Definition staff : User := mkUser (fun _ => true).
Definition guest : User := mkUser (fun _ => false).

Definition request_of (u : User) (payload : string) : Request :=
  {| user := u; GET := ∅; body := Some payload; raw_post_data := "" |}.

Definition page_request (n : string) : Request :=
  {| user := guest; GET := {[ "page" := n ]}; body := Some ""; raw_post_data := "" |}.

Definition start : World := mkWorld shop [].

(** The records [product_view] serializes for the three products. *)
Definition tea_record : record :=
  {[ "id" := VInt 1; "name" := VStr "Tea"; "price" := VInt 4;
     "label" := VStr "Tea, 4"; "is_cheap" := VBool true ]}.

Definition mug_record : record :=
  {[ "id" := VInt 2; "name" := VStr "Mug"; "price" := VInt 9;
     "label" := VStr "Mug, 9"; "is_cheap" := VBool false ]}.

Definition pot_record : record :=
  {[ "id" := VInt 3; "name" := VStr "Pot"; "price" := VInt 30;
     "label" := VStr "Pot, 30"; "is_cheap" := VBool false ]}.

(** The product that the body [body_rex] creates in [shop], and its record. *)
Definition rex : Obj :=
  mkObj 4 {[ "name" := Plain (VStr "Rex"); "price" := Plain (VInt 0);
             "ordering" := Plain (VInt 0); "label" := Callable (VStr "new") ]}.

Definition rex_record : record :=
  {[ "id" := VInt 4; "name" := VStr "Rex"; "price" := VInt 0;
     "label" := VStr "new"; "is_cheap" := VBool true ]}.

(** The mug after an update with [body_rex], and its record. *)
Definition renamed_mug : Obj :=
  mkObj 2 {[ "name" := Plain (VStr "Rex"); "price" := Plain (VInt 9);
             "ordering" := Plain (VInt 10); "label" := Callable (VStr "Mug, 9") ]}.

Definition renamed_mug_record : record :=
  {[ "id" := VInt 2; "name" := VStr "Rex"; "price" := VInt 9;
     "label" := VStr "Mug, 9"; "is_cheap" := VBool false ]}.

(** The record [paged_view] serializes for the pot. *)
Definition pot_name : record := {[ "id" := VInt 3; "name" := VStr "Pot" ]}.

(** A view that asks for a colour, which no product has. *)
Definition colour_view : View :=
  {| model := product;
     display_fields := [FName "colour"];
     fields := ["name"];
     form := None;
     ordering := None;
     paginate_by := None;
     methods := ∅ |}.

(** A request of Django 1.3: no [body] attribute, the payload in
    [raw_post_data]. *)
Definition legacy_request (u : User) (payload : string) : Request :=
  {| user := u; GET := ∅; body := None; raw_post_data := payload |}.

(** The sample framework with a JSON library of another version. *)
Definition framework_with_json (version : string) : Framework := {|
  DB := list Obj;
  Json := record;
  all_objects := fun d => d;
  order_by := ordered;
  get_by_id := find_id;
  delete_obj := remove_row;
  json_loads := decode;
  modelform_factory := product_form;
  paginator_page := page_of;
  all_fields_serializer := stored_fields;
  json_dumps_impl := render;
  json_version := version;
  reverse := url_for;
  ugettext := fun s => s
|}.

End Demo.


(** * Properties *)

Section Properties.
Context `{Framework}.
Local Open Scope view_scope.

(** ** Traces only grow *)

Lemma extends_ret {A} (a : A) : extends (ret a).
Proof. intros w. exists []. simpl. by rewrite app_nil_r. Qed.

Lemma extends_raise {A} (e : exn) : extends (@raise _ A e).
Proof. intros w. exists []. simpl. by rewrite app_nil_r. Qed.

Lemma extends_lift {A} (r : result A) : extends (lift r).
Proof. intros w. exists []. simpl. by rewrite app_nil_r. Qed.

Lemma extends_emit (e : event) : extends (emit e).
Proof. intros w. by exists [e]. Qed.

Lemma extends_read_db : extends read_db.
Proof. intros w. exists []. simpl. by rewrite app_nil_r. Qed.

Lemma extends_write_db (d : DB) : extends (write_db d).
Proof. intros w. exists []. simpl. by rewrite app_nil_r. Qed.

Lemma extends_bind {A B} (m : M A) (f : A -> M B) :
  extends m -> (forall a, extends (f a)) -> extends (bind m f).
Proof.
  intros Hm Hf w. unfold bind.
  destruct (Hm w) as [t Ht]. destruct (m w) as [[a | e] w1]; simpl in *.
  - destruct (Hf a w1) as [t' Ht']. exists (t ++ t')%list.
    by rewrite Ht', Ht, app_assoc.
  - by exists t.
Qed.

Create HintDb extends_db.
#[local] Hint Resolve extends_ret extends_raise extends_lift extends_emit
  extends_read_db extends_write_db : extends_db.

Ltac extends_step :=
  match goal with
  | |- extends (bind _ _) => apply extends_bind; [ | intros ? ]
  | |- extends (match ?x with _ => _ end) => destruct x
  | |- extends (if ?b then _ else _) => destruct b
  | |- extends (let '(_, _) := ?p in _) => destruct p
  | |- extends _ => solve [ eauto with extends_db ]
  end.

Ltac extends_auto := repeat extends_step.

Lemma extends_dumps (p : payload) : extends (dumps p).
Proof. unfold dumps. extends_auto. Qed.

Lemma extends_get_object_detail v request obj :
  extends (get_object_detail v request obj).
Proof. unfold get_object_detail. pose proof extends_dumps. extends_auto. Qed.

Lemma extends_form_save (form : Form DB) : extends (form_save form).
Proof. unfold form_save. extends_auto. Qed.

Lemma extends_add_object v request : extends (add_object v request).
Proof.
  unfold add_object, get_form_instance, has_add_permission_for_data.
  pose proof extends_dumps. pose proof extends_get_object_detail.
  pose proof extends_form_save. extends_auto.
Qed.

Lemma extends_update_object v request obj : extends (update_object v request obj).
Proof.
  unfold update_object, get_form_instance, has_update_permission_for_data.
  pose proof extends_dumps. pose proof extends_get_object_detail.
  pose proof extends_form_save. extends_auto.
Qed.

(** ** The handlers, step by step *)

#[local] Arguments add_object : simpl never.
#[local] Arguments update_object : simpl never.
#[local] Arguments delete_object : simpl never.
#[local] Arguments get_object_detail : simpl never.
#[local] Arguments get_collection : simpl never.

(** Closes a goal from [Hin : e ∈ l] when [e] is none of the events of the
    explicit list [l]. *)
Ltac absent Hin :=
  repeat (apply elem_of_cons in Hin as [Hin | Hin]; [ discriminate Hin | ]);
  by apply elem_of_nil in Hin.

Ltac run_view :=
  unfold get_form_instance, has_add_permission_for_data,
    has_update_permission_for_data, form_save, dumps, bind, emit, ret, raise,
    read_db, write_db, lift; simpl.

Lemma post_with_id v request id w :
  truthy_id id = true -> post v request id w = (Ok (HttpResponseForbidden ""), w).
Proof. intros Hid. unfold post. by rewrite Hid. Qed.

Lemma put_without_id v request id w :
  truthy_id id = false -> put v request id w = (Ok (HttpResponseForbidden ""), w).
Proof. intros Hid. unfold put. destruct id; [ by rewrite Hid | done ]. Qed.

Lemma delete_without_id v request id w :
  truthy_id id = false -> delete v request id w = (Ok (HttpResponseForbidden ""), w).
Proof. intros Hid. unfold delete. destruct id; [ by rewrite Hid | done ]. Qed.

Lemma get_without_id v request id w :
  truthy_id id = false -> get v request id w = get_collection v request w.
Proof. intros Hid. unfold get. destruct id; [ by rewrite Hid | done ]. Qed.

Lemma post_checked v request id w :
  truthy_id id = false ->
  let perm := perm_string v "add" in
  let w1 := mkWorld (db w) (trace w ++ [EvHasPerm perm]) in
  post v request id w
  = if has_perm (user request) perm then add_object v request w1 else (Ok denied, w1).
Proof.
  intros Hid perm w1. unfold post. rewrite Hid.
  unfold has_add_permission, bind, emit, ret. simpl. fold perm.
  by destruct (has_perm (user request) perm).
Qed.

Lemma get_fetched v request i obj w :
  truthy_id (Some i) = true ->
  get_by_id (queryset v (db w)) i = Some obj ->
  get v request (Some i) w
  = get_object_detail v request obj (mkWorld (db w) (trace w ++ [EvGetObject i])).
Proof.
  intros Hid Hget. unfold get. rewrite Hid.
  unfold get_object_or_404, bind, emit, ret, read_db. simpl. by rewrite Hget.
Qed.

Lemma put_fetched v request i obj w :
  truthy_id (Some i) = true ->
  get_by_id (queryset v (db w)) i = Some obj ->
  let perm := perm_string v "change" in
  let w2 := mkWorld (db w) (trace w ++ [EvGetObject i; EvHasPerm perm]) in
  put v request (Some i) w
  = if has_perm (user request) perm then update_object v request obj w2
    else (Ok denied, w2).
Proof.
  intros Hid Hget perm w2. unfold put. rewrite Hid.
  unfold get_object_or_404, has_update_permission, bind, emit, ret, read_db.
  simpl. rewrite Hget. simpl. fold perm. subst w2. rewrite <- app_assoc. simpl.
  by destruct (has_perm (user request) perm).
Qed.

Lemma delete_fetched v request i obj w :
  truthy_id (Some i) = true ->
  get_by_id (queryset v (db w)) i = Some obj ->
  let perm := perm_string v "delete" in
  let w2 := mkWorld (db w) (trace w ++ [EvGetObject i; EvHasPerm perm]) in
  delete v request (Some i) w
  = if has_perm (user request) perm then delete_object v request obj w2
    else (Ok denied, w2).
Proof.
  intros Hid Hget perm w2. unfold delete. rewrite Hid.
  unfold get_object_or_404, has_delete_permission, bind, emit, ret, read_db.
  simpl. rewrite Hget. simpl. fold perm. subst w2. rewrite <- app_assoc. simpl.
  by destruct (has_perm (user request) perm).
Qed.

(** An id that matches no object of the queryset: [get_object_or_404]
    raises before anything else happens. *)
Lemma missing_object v request i w :
  truthy_id (Some i) = true ->
  get_by_id (queryset v (db w)) i = None ->
  let w1 := mkWorld (db w) (trace w ++ [EvGetObject i]) in
  get v request (Some i) w = (Raise Http404, w1) /\
  put v request (Some i) w = (Raise Http404, w1) /\
  delete v request (Some i) w = (Raise Http404, w1).
Proof.
  intros Hid Hget w1. unfold get, put, delete. rewrite Hid.
  unfold get_object_or_404, bind, emit, ret, read_db, raise. simpl.
  by rewrite Hget.
Qed.

Lemma delete_object_run v request obj w :
  delete_object v request obj w
  = (Ok (HttpResponse "" None 204),
     mkWorld (delete_obj obj (db w)) (trace w ++ [EvDelete obj])).
Proof. unfold delete_object. by run_view. Qed.

Lemma get_object_detail_ok v request obj rec w :
  serialize v obj (shown v) = Ok rec ->
  get_object_detail v request obj w
  = (Ok (json_ok (PRecord rec)),
     mkWorld (db w) (trace w ++ [EvJsonDumps (PRecord rec)])).
Proof. intros Hs. unfold get_object_detail, shown in *. run_view. by rewrite Hs. Qed.

Lemma get_object_detail_raise v request obj e w :
  serialize v obj (shown v) = Raise e ->
  get_object_detail v request obj w = (Raise e, w).
Proof. intros Hs. unfold get_object_detail, shown in *. run_view. by rewrite Hs. Qed.

Lemma add_object_unparsable v request w :
  json_loads (request_body request) = None ->
  add_object v request w
  = (Ok bad_json, mkWorld (db w) (trace w ++ [EvJsonLoads (request_body request)])).
Proof. intros Hj. unfold add_object. run_view. by rewrite Hj. Qed.

Lemma update_object_unparsable v request obj w :
  json_loads (request_body request) = None ->
  update_object v request obj w
  = (Ok bad_json, mkWorld (db w) (trace w ++ [EvJsonLoads (request_body request)])).
Proof. intros Hj. unfold update_object. run_view. by rewrite Hj. Qed.

Lemma add_object_invalid v request data w :
  json_loads (request_body request) = Some data ->
  is_valid (bound_form v data None) = false ->
  add_object v request w
  = (Ok (form_errors (bound_form v data None)),
     mkWorld (db w)
       (trace w ++ [EvJsonLoads (request_body request); EvForm None;
                    EvJsonDumps (PErrors (errors (bound_form v data None)))])).
Proof.
  intros Hj Hv. unfold add_object, bound_form in *. run_view. rewrite Hj. simpl.
  rewrite Hv. simpl. by rewrite <- !app_assoc.
Qed.

Lemma update_object_invalid v request obj data w :
  json_loads (request_body request) = Some data ->
  is_valid (bound_form v data (Some obj)) = false ->
  update_object v request obj w
  = (Ok (form_errors (bound_form v data (Some obj))),
     mkWorld (db w)
       (trace w ++ [EvJsonLoads (request_body request); EvForm (Some obj);
                    EvJsonDumps (PErrors (errors (bound_form v data (Some obj))))])).
Proof.
  intros Hj Hv. unfold update_object, bound_form in *. run_view. rewrite Hj. simpl.
  rewrite Hv. simpl. by rewrite <- !app_assoc.
Qed.

(** A valid form is saved, then the saved object is rendered. *)
Lemma add_object_valid v request data obj d' w :
  json_loads (request_body request) = Some data ->
  is_valid (bound_form v data None) = true ->
  save (bound_form v data None) (db w) = (obj, d') ->
  add_object v request w
  = bind (get_object_detail v request obj)
      (fun response =>
         ret (set_header "Location" (reverse (detail_url_name v) [obj_id obj])
                (set_status 201 response)))
      (mkWorld d'
         (trace w ++ [EvJsonLoads (request_body request); EvForm None;
                      EvPermForData (cleaned_data (bound_form v data None)); EvSave])).
Proof.
  intros Hj Hv Hs. unfold add_object, bound_form in *. run_view. rewrite Hj. simpl.
  rewrite Hv. simpl. rewrite Hs. simpl. by rewrite <- !app_assoc.
Qed.

Lemma update_object_valid v request old data obj d' w :
  json_loads (request_body request) = Some data ->
  is_valid (bound_form v data (Some old)) = true ->
  save (bound_form v data (Some old)) (db w) = (obj, d') ->
  update_object v request old w
  = get_object_detail v request obj
      (mkWorld d'
         (trace w ++ [EvJsonLoads (request_body request); EvForm (Some old);
                      EvPermForData (cleaned_data (bound_form v data (Some old)));
                      EvSave])).
Proof.
  intros Hj Hv Hs. unfold update_object, bound_form in *. run_view. rewrite Hj. simpl.
  rewrite Hv. simpl. rewrite Hs. simpl. by rewrite <- !app_assoc.
Qed.

Lemma add_object_created v request data obj d' rec w :
  json_loads (request_body request) = Some data ->
  is_valid (bound_form v data None) = true ->
  save (bound_form v data None) (db w) = (obj, d') ->
  serialize v obj (shown v) = Ok rec ->
  add_object v request w
  = (Ok (created v obj rec),
     mkWorld d'
       (trace w ++ [EvJsonLoads (request_body request); EvForm None;
                    EvPermForData (cleaned_data (bound_form v data None)); EvSave;
                    EvJsonDumps (PRecord rec)])).
Proof.
  intros Hj Hv Hs Hser. rewrite (add_object_valid _ _ _ _ _ _ Hj Hv Hs).
  unfold bind. rewrite (get_object_detail_ok _ _ _ _ _ Hser). simpl.
  unfold created, set_header, set_status, ret. simpl.
  by rewrite <- !app_assoc, insert_empty.
Qed.

Lemma update_object_updated v request old data obj d' rec w :
  json_loads (request_body request) = Some data ->
  is_valid (bound_form v data (Some old)) = true ->
  save (bound_form v data (Some old)) (db w) = (obj, d') ->
  serialize v obj (shown v) = Ok rec ->
  update_object v request old w
  = (Ok (json_ok (PRecord rec)),
     mkWorld d'
       (trace w ++ [EvJsonLoads (request_body request); EvForm (Some old);
                    EvPermForData (cleaned_data (bound_form v data (Some old)));
                    EvSave; EvJsonDumps (PRecord rec)])).
Proof.
  intros Hj Hv Hs Hser. rewrite (update_object_valid _ _ _ _ _ _ _ Hj Hv Hs).
  rewrite (get_object_detail_ok _ _ _ _ _ Hser). simpl. by rewrite <- !app_assoc.
Qed.

(** Once the body has decoded, the trace shows the decoding and the form. *)
Lemma add_object_decoded v request data w :
  json_loads (request_body request) = Some data ->
  exists t, trace (add_object v request w).2
            = (trace w ++ EvJsonLoads (request_body request) :: EvForm None :: t)%list.
Proof.
  intros Hj. destruct (is_valid (bound_form v data None)) eqn:Hv.
  - destruct (save (bound_form v data None) (db w)) as [obj d'] eqn:Hs.
    rewrite (add_object_valid _ _ _ _ _ _ Hj Hv Hs).
    match goal with
    | |- context [bind ?m ?f ?w0] =>
        destruct (extends_bind m f (extends_get_object_detail v request obj)
                    (fun a => extends_ret _) w0) as [t Ht]
    end.
    rewrite Ht. simpl. rewrite <- app_assoc. simpl. by eexists.
  - rewrite (add_object_invalid _ _ _ _ Hj Hv). by eexists.
Qed.

Lemma update_object_decoded v request obj data w :
  json_loads (request_body request) = Some data ->
  exists t, trace (update_object v request obj w).2
            = (trace w ++ EvJsonLoads (request_body request) :: EvForm (Some obj) :: t)%list.
Proof.
  intros Hj. destruct (is_valid (bound_form v data (Some obj))) eqn:Hv.
  - destruct (save (bound_form v data (Some obj)) (db w)) as [o d'] eqn:Hs.
    rewrite (update_object_valid _ _ _ _ _ _ _ Hj Hv Hs).
    match goal with
    | |- context [get_object_detail v request o ?w0] =>
        destruct (extends_get_object_detail v request o w0) as [t Ht]
    end.
    rewrite Ht. simpl. rewrite <- app_assoc. simpl. by eexists.
  - rewrite (update_object_invalid _ _ _ _ _ Hj Hv). by eexists.
Qed.

(** [form.save()] is reached only with a decoded body and a valid form. *)
Lemma add_object_saves_only_valid v request w t :
  trace (add_object v request w).2 = (trace w ++ t)%list ->
  EvSave ∈ t ->
  exists data, json_loads (request_body request) = Some data /\
               is_valid (bound_form v data None) = true.
Proof.
  intros Ht Hin.
  destruct (json_loads (request_body request)) as [data | ] eqn:Hj.
  - exists data. split; [ done | ].
    destruct (is_valid (bound_form v data None)) eqn:Hv; [ done | exfalso ].
    rewrite (add_object_invalid _ _ _ _ Hj Hv) in Ht. simpl in Ht.
    apply app_inv_head in Ht. subst t. absent Hin.
  - exfalso. rewrite (add_object_unparsable _ _ _ Hj) in Ht. simpl in Ht.
    apply app_inv_head in Ht. subst t. absent Hin.
Qed.

Lemma update_object_saves_only_valid v request obj w t :
  trace (update_object v request obj w).2 = (trace w ++ t)%list ->
  EvSave ∈ t ->
  exists data, json_loads (request_body request) = Some data /\
               is_valid (bound_form v data (Some obj)) = true.
Proof.
  intros Ht Hin.
  destruct (json_loads (request_body request)) as [data | ] eqn:Hj.
  - exists data. split; [ done | ].
    destruct (is_valid (bound_form v data (Some obj))) eqn:Hv; [ done | exfalso ].
    rewrite (update_object_invalid _ _ _ _ _ Hj Hv) in Ht. simpl in Ht.
    apply app_inv_head in Ht. subst t. absent Hin.
  - exfalso. rewrite (update_object_unparsable _ _ _ _ Hj) in Ht. simpl in Ht.
    apply app_inv_head in Ht. subst t. absent Hin.
Qed.

(** ** Collections *)

Lemma render_collection_ok v objs recs w :
  serialize_all v objs = Ok recs ->
  render_collection v objs w
  = (Ok (json_ok (PRecords recs)),
     mkWorld (db w) (trace w ++ [EvJsonDumps (PRecords recs)])).
Proof. intros Hs. unfold render_collection. run_view. by rewrite Hs. Qed.

Lemma render_collection_raise v objs e w :
  serialize_all v objs = Raise e ->
  render_collection v objs w = (Raise e, w).
Proof. intros Hs. unfold render_collection. run_view. by rewrite Hs. Qed.

(** The list comprehension serializes every object, in order. *)
Lemma serialize_all_Forall2 v objs recs :
  serialize_all v objs = Ok recs <->
  Forall2 (fun obj rec => serialize v obj (shown v) = Ok rec) objs recs.
Proof.
  revert recs. induction objs as [ | obj objs IH ]; intros recs; simpl.
  - split.
    + intros [= <-]. constructor.
    + intros Hf. by inversion Hf.
  - fold (shown v). destruct (serialize v obj (shown v)) as [rec | e] eqn:Hs.
    + destruct (serialize_all v objs) as [rs | e] eqn:Hall.
      * split.
        -- intros [= <-]. constructor; [ done | ]. by apply IH.
        -- intros Hf. inversion Hf as [ | ? r ? rs' Hr Hrest ]; subst.
           apply IH in Hrest. congruence.
      * split; [ done | ].
        intros Hf. inversion Hf as [ | ? r ? rs' Hr Hrest ]; subst.
        apply IH in Hrest. congruence.
    + split; [ done | ].
      intros Hf. inversion Hf as [ | ? r ? rs' Hr Hrest ]; subst. congruence.
Qed.

Lemma serialize_all_length v objs recs :
  serialize_all v objs = Ok recs -> length recs = length objs.
Proof.
  intros Hs. apply serialize_all_Forall2 in Hs. symmetry.
  by eapply Forall2_length.
Qed.

Lemma get_collection_unfold v request w :
  get_collection v request w
  = let w1 := mkWorld (db w) (trace w ++ [EvQuerySet]) in
    let qs := queryset v (db w) in
    match paginate_by v with
    | Some per_page =>
        match paginator_page qs per_page (page_param request) with
        | PageOk object_list => render_collection v object_list w1
        | PageNotAnInteger =>
            (Ok (HttpResponseBadRequest
                   (ugettext "Invalid `page` parameter: Not a valid integer.") None), w1)
        | EmptyPage =>
            (Ok (HttpResponseBadRequest
                   (ugettext "Invalid `page` parameter: Out of range.") None), w1)
        end
    | None => render_collection v qs w1
    end.
Proof.
  unfold get_collection, bind, emit, read_db, ret. simpl.
  destruct (paginate_by v) as [n | ]; [ | done ].
  by destruct (paginator_page _ _ _).
Qed.

(** The collection served without pagination. *)
Lemma get_collection_all v request recs w :
  paginate_by v = None ->
  serialize_all v (queryset v (db w)) = Ok recs ->
  get_collection v request w
  = (Ok (json_ok (PRecords recs)),
     mkWorld (db w) (trace w ++ [EvQuerySet; EvJsonDumps (PRecords recs)])).
Proof.
  intros Hp Hs. rewrite get_collection_unfold, Hp. simpl.
  rewrite (render_collection_ok _ _ _ _ Hs). simpl. by rewrite <- app_assoc.
Qed.

(** The collection served one page at a time. *)
Lemma get_collection_page v request n objs recs w :
  paginate_by v = Some n ->
  paginator_page (queryset v (db w)) n (page_param request) = PageOk objs ->
  serialize_all v objs = Ok recs ->
  get_collection v request w
  = (Ok (json_ok (PRecords recs)),
     mkWorld (db w) (trace w ++ [EvQuerySet; EvJsonDumps (PRecords recs)])).
Proof.
  intros Hp Hpage Hs. rewrite get_collection_unfold, Hp. simpl.
  rewrite Hpage, (render_collection_ok _ _ _ _ Hs). simpl. by rewrite <- app_assoc.
Qed.

(** ** Serialization *)
















(** ** JSON bodies and plain bodies *)



Lemma get_object_detail_answers v request obj w r w' :
  get_object_detail v request obj w = (Ok r, w') ->
  exists rec, serialize v obj (shown v) = Ok rec /\
              r = json_ok (PRecord rec) /\
              w' = mkWorld (db w) (trace w ++ [EvJsonDumps (PRecord rec)]).
Proof.
  intros Hr. destruct (serialize v obj (shown v)) as [rec | e] eqn:Hs.
  - rewrite (get_object_detail_ok _ _ _ _ _ Hs) in Hr. injection Hr as <- <-.
    by exists rec.
  - by rewrite (get_object_detail_raise _ _ _ _ _ Hs) in Hr.
Qed.

(** An answer of [add_object] after [form.save()] is the 201 of a creation. *)
Lemma add_object_saved v request w r w' t :
  add_object v request w = (Ok r, w') ->
  trace w' = (trace w ++ t)%list ->
  EvSave ∈ t ->
  exists data obj rec,
    json_loads (request_body request) = Some data /\
    obj = (save (bound_form v data None) (db w)).1 /\
    serialize v obj (shown v) = Ok rec /\
    r = created v obj rec.
Proof.
  intros Hr Ht Hin.
  assert (Ht' : trace (add_object v request w).2 = (trace w ++ t)%list).
  { by rewrite Hr. }
  destruct (add_object_saves_only_valid _ _ _ _ Ht' Hin) as (data & Hj & Hv).
  destruct (save (bound_form v data None) (db w)) as [obj d'] eqn:Hs.
  rewrite (add_object_valid _ _ _ _ _ _ Hj Hv Hs) in Hr. unfold bind in Hr.
  match type of Hr with
  | context [get_object_detail v request obj ?w0] =>
      destruct (get_object_detail v request obj w0) as [[r0 | e] w1] eqn:Hd;
        [ | done ]
  end.
  apply get_object_detail_answers in Hd as (rec & Hser & -> & ->).
  injection Hr as <- _. exists data, obj, rec.
  split; [ done | ]. split; [ by rewrite Hs | ]. split; [ done | ].
  unfold created, set_header, set_status. simpl. by rewrite insert_empty.
Qed.






(** * The claims *)

(** ** Requests on the wrong target *)

(** C8: a POST that carries an id, and a PUT or a DELETE that carries none,
    is answered with an empty 403 whatever the request holds (its user, its
    body) and leaves the world as it was: the database is unchanged and no
    framework call is logged, so no permission is checked, no body is read
    and no object is fetched. *)
Theorem wrong_target_forbidden (v : View) (request : Request) (id : option string)
    (w : World) :
  (truthy_id id = true ->
     post v request id w = (Ok (HttpResponseForbidden ""), w)) /\
  (truthy_id id = false ->
     put v request id w = (Ok (HttpResponseForbidden ""), w) /\
     delete v request id w = (Ok (HttpResponseForbidden ""), w)) /\
  status_code (HttpResponseForbidden "") = 403 /\
  content (HttpResponseForbidden "") = "".
Proof.
  split; [ apply post_with_id | ]. split; [ | done ].
  intros Hid. split; [ by apply put_without_id | by apply delete_without_id ].
Qed.

(** ** The permission gate *)

(** C2 (amended): a POST to the collection checks [has_perm] with the add
    permission; a PUT or DELETE whose id matches an object of the queryset
    fetches it and then checks [has_perm] with the change or delete
    permission; when the check fails the answer is 403 and the database is
    unchanged.  A PUT or DELETE whose id matches no object raises [Http404]
    and no permission is checked. *)
Theorem permission_gate (v : View) (request : Request) (w : World) :
  (forall id, truthy_id id = false ->
     let perm := perm_string v "add" in
     (exists t, trace (post v request id w).2 = (trace w ++ EvHasPerm perm :: t)%list) /\
     (has_perm (user request) perm = false ->
        post v request id w
        = (Ok denied, mkWorld (db w) (trace w ++ [EvHasPerm perm])))) /\
  (forall i obj, truthy_id (Some i) = true ->
     get_by_id (queryset v (db w)) i = Some obj ->
     let change := perm_string v "change" in
     let del := perm_string v "delete" in
     (exists t, trace (put v request (Some i) w).2
                = (trace w ++ EvGetObject i :: EvHasPerm change :: t)%list) /\
     (exists t, trace (delete v request (Some i) w).2
                = (trace w ++ EvGetObject i :: EvHasPerm del :: t)%list) /\
     (has_perm (user request) change = false ->
        put v request (Some i) w
        = (Ok denied, mkWorld (db w) (trace w ++ [EvGetObject i; EvHasPerm change]))) /\
     (has_perm (user request) del = false ->
        delete v request (Some i) w
        = (Ok denied, mkWorld (db w) (trace w ++ [EvGetObject i; EvHasPerm del])))) /\
  (forall i, truthy_id (Some i) = true ->
     get_by_id (queryset v (db w)) i = None ->
     put v request (Some i) w
     = (Raise Http404, mkWorld (db w) (trace w ++ [EvGetObject i])) /\
     delete v request (Some i) w
     = (Raise Http404, mkWorld (db w) (trace w ++ [EvGetObject i]))) /\
  status_code denied = 403.
Proof.
  split; [ | split; [ | split; [ | done ] ] ].
  - intros id Hid perm. rewrite (post_checked _ _ _ _ Hid). simpl. fold perm.
    destruct (has_perm (user request) perm).
    + split; [ | done ].
      destruct (extends_add_object v request
                  (mkWorld (db w) (trace w ++ [EvHasPerm perm]))) as [t Ht].
      exists t. rewrite Ht. simpl. by rewrite <- app_assoc.
    + split; [ | done ]. by exists [].
  - intros i obj Hid Hget change del.
    rewrite (put_fetched _ _ _ _ _ Hid Hget), (delete_fetched _ _ _ _ _ Hid Hget).
    simpl. fold change del. repeat split.
    + destruct (has_perm (user request) change).
      * destruct (extends_update_object v request obj
          (mkWorld (db w) (trace w ++ [EvGetObject i; EvHasPerm change])))
          as [t Ht].
        exists t. rewrite Ht. simpl. by rewrite <- app_assoc.
      * by exists [].
    + destruct (has_perm (user request) del).
      * rewrite delete_object_run. simpl. rewrite <- app_assoc. by eexists.
      * by exists [].
    + by intros ->.
    + by intros ->.
  - intros i Hid Hget. by destruct (missing_object v request i w Hid Hget) as (_ & ? & ?).
Qed.

(** ** Forms *)

(** C3: create and update decode the request body and bind a model form to
    the decoded data (with the object as instance for an update); when the
    form does not validate the answer is a 400 whose body is the JSON dump of
    the form's errors and the database is unchanged; [form.save()] is reached
    only when the body decodes and the form validates. *)
Theorem form_validation (v : View) (request : Request) (instance : option Obj)
    (w : World) :
  let submit := match instance with
                | None => add_object v request
                | Some obj => update_object v request obj
                end in
  let raw := request_body request in
  (forall data, json_loads raw = Some data ->
     let form := bound_form v data instance in
     (exists t, trace (submit w).2
                = (trace w ++ EvJsonLoads raw :: EvForm instance :: t)%list) /\
     (is_valid form = false ->
        submit w
        = (Ok (form_errors form),
           mkWorld (db w)
             (trace w ++ [EvJsonLoads raw; EvForm instance;
                          EvJsonDumps (PErrors (errors form))])) /\
        status_code (form_errors form) = 400 /\
        content (form_errors form) = json_dumps (PErrors (errors form)) ∅ /\
        content_type (form_errors form) = Some json_content_type)) /\
  (forall t, trace (submit w).2 = (trace w ++ t)%list -> EvSave ∈ t ->
     exists data, json_loads raw = Some data /\
                  is_valid (bound_form v data instance) = true).
Proof.
  intros submit raw. subst submit raw. split.
  - intros data Hj form. subst form. destruct instance as [obj | ].
    + split; [ by eapply update_object_decoded | ].
      intros Hv. by rewrite (update_object_invalid _ _ _ _ _ Hj Hv).
    + split; [ by eapply add_object_decoded | ].
      intros Hv. by rewrite (add_object_invalid _ _ _ _ Hj Hv).
  - intros t Ht Hin. destruct instance as [obj | ].
    + by eapply update_object_saves_only_valid.
    + by eapply add_object_saves_only_valid.
Qed.

(** ** Creation and deletion *)

(** C9: when the body decodes, the form validates and the saved object
    serializes, the answer to a creation has status 201, the JSON dump of the
    new object's record as body and the reversed detail URL of the new object
    in its [Location] header, and the database is the one [form.save()]
    left; every answer that [add_object] gives after [form.save()] is of
    this shape; [delete_object] deletes the object and answers an empty
    204. *)
Theorem created_and_deleted (v : View) (request : Request) (w : World) :
  (forall data obj d' rec,
     json_loads (request_body request) = Some data ->
     let form := bound_form v data None in
     is_valid form = true ->
     save form (db w) = (obj, d') ->
     serialize v obj (FName "id" :: display_fields v) = Ok rec ->
     add_object v request w
     = (Ok {| status_code := 201;
              content := json_dumps (PRecord rec) ∅;
              content_type := Some json_content_type;
              headers := {[ "Location" := reverse (detail_url_name v) [obj_id obj] ]} |},
        mkWorld d'
          (trace w ++ [EvJsonLoads (request_body request); EvForm None;
                       EvPermForData (cleaned_data form); EvSave;
                       EvJsonDumps (PRecord rec)]))) /\
  (forall r w' t,
     add_object v request w = (Ok r, w') ->
     trace w' = (trace w ++ t)%list ->
     EvSave ∈ t ->
     exists data obj rec,
       json_loads (request_body request) = Some data /\
       obj = (save (bound_form v data None) (db w)).1 /\
       serialize v obj (FName "id" :: display_fields v) = Ok rec /\
       status_code r = 201 /\
       content r = json_dumps (PRecord rec) ∅ /\
       headers r !! "Location" = Some (reverse (detail_url_name v) [obj_id obj])) /\
  (forall obj,
     delete_object v request obj w
     = (Ok {| status_code := 204; content := ""; content_type := None; headers := ∅ |},
        mkWorld (delete_obj obj (db w)) (trace w ++ [EvDelete obj]))).
Proof.
  split; [ | split ].
  - intros data obj d' rec Hj form Hv Hs Hser.
    by apply add_object_created.
  - intros r w' t Hr Ht Hin.
    destruct (add_object_saved _ _ _ _ _ _ Hr Ht Hin)
      as (data & obj & rec & Hj & Hobj & Hser & ->).
    exists data, obj, rec. repeat (split; [ done | ]).
    unfold created. simpl. apply lookup_singleton_eq.
  - intros obj. apply delete_object_run.
Qed.

(** ** Undecodable bodies *)

(** C10 (amended): when [json.loads] rejects the body, [add_object] and
    [update_object] answer 400 with the parse message right after the
    decoding attempt; so do a POST without id from a user with the add
    permission and a PUT with the id of an object of the queryset from a user
    with the change permission.  Whatever the id and the permissions, a POST
    or PUT with such a body leaves the database unchanged and logs nothing
    but permission checks, the object fetch and the decoding attempt: no
    form, no check on the data, no save. *)
Theorem unparsable_body_rejected (v : View) (request : Request) (w : World) :
  json_loads (request_body request) = None ->
  let raw := request_body request in
  add_object v request w = (Ok bad_json, mkWorld (db w) (trace w ++ [EvJsonLoads raw])) /\
  (forall obj,
     update_object v request obj w
     = (Ok bad_json, mkWorld (db w) (trace w ++ [EvJsonLoads raw]))) /\
  (forall id, truthy_id id = false ->
     has_perm (user request) (perm_string v "add") = true ->
     post v request id w
     = (Ok bad_json,
        mkWorld (db w) (trace w ++ [EvHasPerm (perm_string v "add"); EvJsonLoads raw]))) /\
  (forall i obj, truthy_id (Some i) = true ->
     get_by_id (queryset v (db w)) i = Some obj ->
     has_perm (user request) (perm_string v "change") = true ->
     put v request (Some i) w
     = (Ok bad_json,
        mkWorld (db w)
          (trace w ++ [EvGetObject i; EvHasPerm (perm_string v "change");
                       EvJsonLoads raw]))) /\
  (forall id, exists t,
     (post v request id w).2 = mkWorld (db w) (trace w ++ t) /\
     Forall before_form t) /\
  (forall id, exists t,
     (put v request id w).2 = mkWorld (db w) (trace w ++ t) /\
     Forall before_form t) /\
  status_code bad_json = 400 /\ content bad_json = ugettext unparsable_body.
Proof.
  intros Hj raw.
  assert (Hpost : forall id, truthy_id id = false ->
            has_perm (user request) (perm_string v "add") = true ->
            post v request id w
            = (Ok bad_json,
               mkWorld (db w)
                 (trace w ++ [EvHasPerm (perm_string v "add"); EvJsonLoads raw]))).
  { intros id Hid Hp. rewrite (post_checked _ _ _ _ Hid). simpl. rewrite Hp.
    rewrite (add_object_unparsable _ _ _ Hj). simpl. by rewrite <- app_assoc. }
  assert (Hput : forall i obj, truthy_id (Some i) = true ->
            get_by_id (queryset v (db w)) i = Some obj ->
            has_perm (user request) (perm_string v "change") = true ->
            put v request (Some i) w
            = (Ok bad_json,
               mkWorld (db w)
                 (trace w ++ [EvGetObject i; EvHasPerm (perm_string v "change");
                              EvJsonLoads raw]))).
  { intros i obj Hid Hget Hp. rewrite (put_fetched _ _ _ _ _ Hid Hget). simpl.
    rewrite Hp, (update_object_unparsable _ _ _ _ Hj). simpl.
    by rewrite <- !app_assoc. }
  split; [ by apply add_object_unparsable | ].
  split; [ intros obj; by apply update_object_unparsable | ].
  split; [ done | ]. split; [ done | ].
  split; [ | split; [ | done ] ].
  - intros id. destruct (truthy_id id) eqn:Hid.
    + exists []. rewrite (post_with_id _ _ _ _ Hid).
      simpl. rewrite app_nil_r. by destruct w.
    + destruct (has_perm (user request) (perm_string v "add")) eqn:Hp.
      * rewrite (Hpost id Hid eq_refl). eexists. split; [ reflexivity | ].
        by repeat constructor.
      * rewrite (post_checked _ _ _ _ Hid). simpl. rewrite Hp.
        eexists. split; [ reflexivity | ]. by repeat constructor.
  - intros id. destruct (truthy_id id) eqn:Hid.
    + destruct id as [i | ]; [ | done ].
      destruct (get_by_id (queryset v (db w)) i) as [obj | ] eqn:Hget.
      * destruct (has_perm (user request) (perm_string v "change")) eqn:Hp.
        -- rewrite (Hput i obj Hid Hget eq_refl). eexists.
           split; [ reflexivity | ]. by repeat constructor.
        -- rewrite (put_fetched _ _ _ _ _ Hid Hget). simpl. rewrite Hp.
           eexists. split; [ reflexivity | ]. by repeat constructor.
      * destruct (missing_object v request i w Hid Hget) as (_ & Hp & _).
        rewrite Hp. eexists. split; [ reflexivity | ]. by repeat constructor.
    + exists []. rewrite (put_without_id _ _ _ _ Hid).
      simpl. rewrite app_nil_r. by destruct w.
Qed.

(** ** Reading records *)


(** ** Pagination *)

(** C5: with [paginate_by = None] the collection is the whole (ordered)
    queryset; with [paginate_by = Some n] it is the object list of the page
    that the framework's paginator returns for [n] objects per page and the
    [page] parameter of the query string, 1 when there is none, and a page
    the paginator refuses is answered with a 400.  The records served are the
    serialized objects of that page, one per object, so at most [n] of them
    when the paginator keeps to its page size. *)
Theorem pagination (v : View) (request : Request) (w : World) :
  let qs := queryset v (db w) in
  let w1 := mkWorld (db w) (trace w ++ [EvQuerySet]) in
  (GET request !! "page" = None -> page_param request = PageInt 1) /\
  (forall s, GET request !! "page" = Some s -> page_param request = PageStr s) /\
  (forall recs, paginate_by v = None ->
     serialize_all v qs = Ok recs ->
     get_collection v request w
     = (Ok (json_ok (PRecords recs)),
        mkWorld (db w) (trace w ++ [EvQuerySet; EvJsonDumps (PRecords recs)])) /\
     Forall2 (fun obj rec => serialize v obj (FName "id" :: display_fields v) = Ok rec)
             qs recs) /\
  (forall n objs recs, paginate_by v = Some n ->
     paginator_page qs n (page_param request) = PageOk objs ->
     serialize_all v objs = Ok recs ->
     get_collection v request w
     = (Ok (json_ok (PRecords recs)),
        mkWorld (db w) (trace w ++ [EvQuerySet; EvJsonDumps (PRecords recs)])) /\
     Forall2 (fun obj rec => serialize v obj (FName "id" :: display_fields v) = Ok rec)
             objs recs /\
     ((forall l per_page number page,
         paginator_page l per_page number = PageOk page ->
         Z.of_nat (length page) <= per_page) ->
      Z.of_nat (length recs) <= n)) /\
  (forall n, paginate_by v = Some n ->
     paginator_page qs n (page_param request) = PageNotAnInteger ->
     get_collection v request w
     = (Ok (HttpResponseBadRequest
              (ugettext "Invalid `page` parameter: Not a valid integer.") None), w1)) /\
  (forall n, paginate_by v = Some n ->
     paginator_page qs n (page_param request) = EmptyPage ->
     get_collection v request w
     = (Ok (HttpResponseBadRequest
              (ugettext "Invalid `page` parameter: Out of range.") None), w1)).
Proof.
  intros qs w1.
  split; [ unfold page_param; by intros -> | ].
  split; [ unfold page_param; by intros s -> | ].
  split; [ | split; [ | split ] ].
  - intros recs Hp Hs. split; [ by apply get_collection_all | ].
    by apply serialize_all_Forall2.
  - intros n objs recs Hp Hpage Hs. split; [ | split ].
    + by eapply get_collection_page.
    + by apply serialize_all_Forall2.
    + intros Hlaw. rewrite (serialize_all_length _ _ _ Hs). by eapply Hlaw.
  - intros n Hp Hpage. rewrite get_collection_unfold, Hp. simpl.
    fold qs. by rewrite Hpage.
  - intros n Hp Hpage. rewrite get_collection_unfold, Hp. simpl.
    fold qs. by rewrite Hpage.
Qed.

(** ** The five operations *)

(** C4: of the eight combinations of a request method with or without an
    id, the five the specification names are served and the three others
    are refused with an empty 403 that touches nothing.  GET without id
    answers with the collection, GET with id with the record of the object
    of that id, POST without id saves a new object from the form and answers
    201, PUT with id saves the form bound to the object of that id and
    answers with its record, DELETE with id deletes the object of that id and
    answers 204. *)
Theorem five_operations (v : View) (request : Request) (id : option string)
    (w : World) :
  length (List.filter (fun p => bool_decide (is_Some (operation_of p.1 p.2)))
                      all_requests) = 5%nat /\
  (forall m, operation_of m (truthy_id id) = None ->
     dispatch v m request id w = (Ok (HttpResponseForbidden ""), w)) /\
  (forall m, operation_of m (truthy_id id) = Some ListRecords ->
     dispatch v m request id w = get_collection v request w /\
     forall recs, paginate_by v = None ->
       serialize_all v (queryset v (db w)) = Ok recs ->
       dispatch v m request id w
       = (Ok (json_ok (PRecords recs)),
          mkWorld (db w) (trace w ++ [EvQuerySet; EvJsonDumps (PRecords recs)]))) /\
  (forall m i obj rec, operation_of m (truthy_id id) = Some RecordDetail ->
     id = Some i ->
     get_by_id (queryset v (db w)) i = Some obj ->
     serialize v obj (FName "id" :: display_fields v) = Ok rec ->
     dispatch v m request id w
     = (Ok (json_ok (PRecord rec)),
        mkWorld (db w) (trace w ++ [EvGetObject i; EvJsonDumps (PRecord rec)]))) /\
  (forall m data obj d' rec, operation_of m (truthy_id id) = Some CreateRecord ->
     has_perm (user request) (perm_string v "add") = true ->
     json_loads (request_body request) = Some data ->
     let form := bound_form v data None in
     is_valid form = true ->
     save form (db w) = (obj, d') ->
     serialize v obj (FName "id" :: display_fields v) = Ok rec ->
     dispatch v m request id w
     = (Ok (created v obj rec),
        mkWorld d'
          (trace w ++ [EvHasPerm (perm_string v "add");
                       EvJsonLoads (request_body request); EvForm None;
                       EvPermForData (cleaned_data form); EvSave;
                       EvJsonDumps (PRecord rec)]))) /\
  (forall m i old data obj d' rec, operation_of m (truthy_id id) = Some UpdateRecord ->
     id = Some i ->
     get_by_id (queryset v (db w)) i = Some old ->
     has_perm (user request) (perm_string v "change") = true ->
     json_loads (request_body request) = Some data ->
     let form := bound_form v data (Some old) in
     is_valid form = true ->
     save form (db w) = (obj, d') ->
     serialize v obj (FName "id" :: display_fields v) = Ok rec ->
     dispatch v m request id w
     = (Ok (json_ok (PRecord rec)),
        mkWorld d'
          (trace w ++ [EvGetObject i; EvHasPerm (perm_string v "change");
                       EvJsonLoads (request_body request); EvForm (Some old);
                       EvPermForData (cleaned_data form); EvSave;
                       EvJsonDumps (PRecord rec)]))) /\
  (forall m i obj, operation_of m (truthy_id id) = Some DeleteRecord ->
     id = Some i ->
     get_by_id (queryset v (db w)) i = Some obj ->
     has_perm (user request) (perm_string v "delete") = true ->
     dispatch v m request id w
     = (Ok (HttpResponse "" None 204),
        mkWorld (delete_obj obj (db w))
          (trace w ++ [EvGetObject i; EvHasPerm (perm_string v "delete");
                       EvDelete obj]))).
Proof.
  split; [ reflexivity | ].
  split; [ | split; [ | split; [ | split; [ | split ] ] ] ].
  - intros m Hop. destruct m, (truthy_id id) eqn:Hid; try discriminate Hop; unfold dispatch.
    + by apply post_with_id.
    + by apply put_without_id.
    + by apply delete_without_id.
  - intros m Hop. destruct m, (truthy_id id) eqn:Hid; try discriminate Hop; unfold dispatch.
    rewrite (get_without_id _ _ _ _ Hid). split; [ done | ].
    intros recs Hp Hs. by apply get_collection_all.
  - intros m i obj rec Hop -> Hget Hs.
    destruct m, (truthy_id (Some i)) eqn:Hid; try discriminate Hop; unfold dispatch.
    rewrite (get_fetched _ _ _ _ _ Hid Hget), (get_object_detail_ok _ _ _ _ _ Hs).
    simpl. by rewrite <- app_assoc.
  - intros m data obj d' rec Hop Hp Hj form Hv Hsave Hs.
    destruct m, (truthy_id id) eqn:Hid; try discriminate Hop; unfold dispatch.
    rewrite (post_checked _ _ _ _ Hid). simpl. rewrite Hp.
    rewrite (add_object_created v request data obj d' rec (mkWorld (db w) _) Hj Hv Hsave Hs).
    simpl.
    by rewrite <- app_assoc.
  - intros m i old data obj d' rec Hop -> Hget Hp Hj form Hv Hsave Hs.
    destruct m, (truthy_id (Some i)) eqn:Hid; try discriminate Hop; unfold dispatch.
    rewrite (put_fetched _ _ _ _ _ Hid Hget). simpl. rewrite Hp.
    rewrite (update_object_updated v request old data obj d' rec (mkWorld (db w) _)
               Hj Hv Hsave Hs).
    simpl.
    by rewrite <- app_assoc.
  - intros m i obj Hop -> Hget Hp.
    destruct m, (truthy_id (Some i)) eqn:Hid; try discriminate Hop; unfold dispatch.
    rewrite (delete_fetched _ _ _ _ _ Hid Hget). simpl. rewrite Hp.
    rewrite delete_object_run. simpl. by rewrite <- app_assoc.
Qed.

(** ** JSON encoding *)


(** Two runs are equal when their results, databases and traces are. *)
Lemma run_eq {A} (x y : result A * World) :
  x.1 = y.1 -> db x.2 = db y.2 -> trace x.2 = trace y.2 -> x = y.
Proof.
  destruct x as [rx [dx tx]], y as [ry [dy ty]]. simpl. by intros -> -> ->.
Qed.

End Properties.

(** * The view on the sample shop *)

Import Demo.

(** Evaluation of a closed run, component by component. *)
Ltac by_running := apply run_eq; vm_compute; reflexivity.

(** Evaluation of a closed value. *)
Ltac by_computing := vm_compute; reflexivity.

(** A closed name that is in a closed list. *)
Ltac by_computing_elem :=
  match goal with
  | |- ?x ∈ ?l => apply (bool_decide_eq_true_1 (x ∈ l)); by_computing
  end.

(** A closed name that is not in a closed list. *)
Ltac not_listed :=
  match goal with
  | |- ?x ∉ ?l => apply (bool_decide_eq_false_1 (x ∈ l)); by_computing
  end.

(** The sample paginator keeps to its page size. *)
Lemma page_of_bounded (l : list Obj) (per_page : Z) (number : page_arg)
    (page : list Obj) :
  page_of l per_page number = PageOk page -> Z.of_nat (length page) <= per_page.
Proof.
  unfold page_of.
  destruct (match number with PageInt k => Some k | PageStr s => parse_int s end)
    as [k | ]; [ | done ].
  destruct (orb (k <? 1) (per_page <? 1)) eqn:Hsmall; [ done | ].
  destruct (Z.max 1 ((Z.of_nat (length l) + per_page - 1) / per_page) <? k); [ done | ].
  intros [= <-]. rewrite length_take.
  apply orb_false_iff in Hsmall as [_ Hper]. apply Z.ltb_ge in Hper. lia.
Qed.

(** The sample serializer emits selected fields only. *)
Lemma stored_fields_selected (obj : Obj) (fs : list string) (k : string) :
  is_Some (stored_fields obj fs !! k) -> k ∈ fs.
Proof.
  unfold stored_fields. intros [x Hx].
  apply lookup_omap_Some in Hx as (a & _ & Ha).
  by apply map_lookup_filter_Some in Ha as [_ Hk].
Qed.



(** C1: the class attribute [ordering] of the view, left at [None], hides
    the [ordering] column of the products: the view has no method of that
    name and the product has the attribute, yet [serialize] does not fall
    back to it and raises a [TypeError], and so does the GET of the product. *)
Theorem view_attribute_hides_model_field :
  ordering window_view = None /\
  methods window_view !! "ordering" = None /\
  obj_getattr tea "ordering" = Some (Plain (VInt 20)) /\
  serialize window_view tea [FName "id"; FName "name"; FName "ordering"]
  = Raise (TypeError "view attribute is not callable: ordering") /\
  get window_view (request_of guest "") (Some "1") start
  = (Raise (TypeError "view attribute is not callable: ordering"),
     mkWorld shop [EvGetObject "1"]).
Proof.
  split; [ reflexivity | ]. split; [ by_computing | ]. split; [ by_computing | ].
  split; [ by_computing | by_running ].
Qed.

(** C8, on the shop: staff posting to product 2, and putting to or deleting
    the collection. *)
Lemma wrong_target_forbidden_witness :
  post product_view (request_of staff body_rex) (Some "2") start
  = (Ok (HttpResponseForbidden ""), start) /\
  put product_view (request_of staff body_rex) None start
  = (Ok (HttpResponseForbidden ""), start) /\
  delete product_view (request_of staff body_rex) None start
  = (Ok (HttpResponseForbidden ""), start).
Proof.
  split.
  - apply (wrong_target_forbidden product_view (request_of staff body_rex)
             (Some "2") start).
    reflexivity.
  - apply (wrong_target_forbidden product_view (request_of staff body_rex)
             None start).
    reflexivity.
Defined.

(** C2: a guest may not update product 7, yet the PUT is not answered with
    a 403: there is no product 7, the handler raises [Http404] and
    [has_perm] is never asked. *)
Lemma put_unknown_id_is_not_checked :
  has_perm guest (perm_string product_view "change") = false /\
  put product_view (request_of guest body_rex) (Some "7") start
  = (Raise Http404, mkWorld shop [EvGetObject "7"]) /\
  ~ (exists r w', put product_view (request_of guest body_rex) (Some "7") start
                  = (Ok r, w') /\ status_code r = 403) /\
  (forall perm,
     EvHasPerm perm ∉ trace (put product_view (request_of guest body_rex)
                               (Some "7") start).2).
Proof.
  assert (Hput : put product_view (request_of guest body_rex) (Some "7") start
                 = (Raise Http404, mkWorld shop [EvGetObject "7"])).
  { by_running. }
  split; [ reflexivity | ]. split; [ exact Hput | ]. split.
  - intros (r & w' & Hr & _). rewrite Hput in Hr. discriminate Hr.
  - intros perm Hin. rewrite Hput in Hin. simpl in Hin.
    apply elem_of_cons in Hin as [Hin | Hin]; [ discriminate Hin | ].
    by apply elem_of_nil in Hin.
Qed.

(** C2 (amended), on the shop: a guest is refused the creation, the update
    of product 2 and its deletion after the permission check; nothing is
    checked for product 7. *)
Lemma permission_gate_witness :
  post product_view (request_of guest body_rex) None start
  = (Ok denied, mkWorld shop [EvHasPerm "shop.add_product"]) /\
  put product_view (request_of guest body_rex) (Some "2") start
  = (Ok denied, mkWorld shop [EvGetObject "2"; EvHasPerm "shop.change_product"]) /\
  delete product_view (request_of guest body_rex) (Some "2") start
  = (Ok denied, mkWorld shop [EvGetObject "2"; EvHasPerm "shop.delete_product"]) /\
  delete product_view (request_of guest body_rex) (Some "7") start
  = (Raise Http404, mkWorld shop [EvGetObject "7"]).
Proof.
  destruct (permission_gate product_view (request_of guest body_rex) start)
    as (Hpost & Hfound & Hmissing & _).
  assert (Hmug : get_by_id (queryset product_view (db start)) "2" = Some mug).
  { by_computing. }
  assert (Hnone : get_by_id (queryset product_view (db start)) "7" = None).
  { by_computing. }
  destruct (Hfound "2" mug eq_refl Hmug) as (_ & _ & Hput & Hdelete).
  split; [ exact (proj2 (Hpost None eq_refl) eq_refl) | ].
  split; [ exact (Hput eq_refl) | ].
  split; [ exact (Hdelete eq_refl) | ].
  exact (proj2 (Hmissing "7" eq_refl Hnone)).
Defined.

(** C3, on the shop: the body [{}] lacks the required name, so the creation
    and the update of the mug are answered with the errors of the form and
    the shop is unchanged. *)
Lemma form_validation_witness :
  add_object product_view (request_of staff "{}") start
  = (Ok (form_errors (bound_form product_view ∅ None)),
     mkWorld shop
       [EvJsonLoads "{}"; EvForm None;
        EvJsonDumps (PErrors {[ "name" := ["This field is required."] ]})]) /\
  update_object product_view (request_of staff "{}") mug start
  = (Ok (form_errors (bound_form product_view ∅ (Some mug))),
     mkWorld shop
       [EvJsonLoads "{}"; EvForm (Some mug);
        EvJsonDumps (PErrors {[ "name" := ["This field is required."] ]})]) /\
  status_code (form_errors (bound_form product_view ∅ None)) = 400.
Proof.
  destruct (form_validation product_view (request_of staff "{}") None start)
    as [Hadd _].
  destruct (form_validation product_view (request_of staff "{}") (Some mug) start)
    as [Hupdate _].
  destruct (proj2 (Hadd ∅ eq_refl) eq_refl) as (Ha & Hstatus & _).
  destruct (proj2 (Hupdate ∅ eq_refl) eq_refl) as (Hu & _).
  split; [ exact Ha | ]. split; [ exact Hu | exact Hstatus ].
Defined.

(** C9, on the shop: staff creates Rex, who becomes product 4, and deletes
    the mug. *)
Lemma created_and_deleted_witness :
  add_object product_view (request_of staff body_rex) start
  = (Ok {| status_code := 201;
           content := json_dumps (PRecord rex_record) ∅;
           content_type := Some json_content_type;
           headers := {[ "Location" := "/backbone:shop_product_detail/4" ]} |},
     mkWorld [mug; tea; pot; rex]
       [EvJsonLoads body_rex; EvForm None; EvPermForData {[ "name" := VStr "Rex" ]};
        EvSave; EvJsonDumps (PRecord rex_record)]) /\
  delete_object product_view (request_of staff "") mug start
  = (Ok {| status_code := 204; content := ""; content_type := None; headers := ∅ |},
     mkWorld [tea; pot] [EvDelete mug]).
Proof.
  destruct (created_and_deleted product_view (request_of staff body_rex) start)
    as [Hcreate _].
  destruct (created_and_deleted product_view (request_of staff "") start)
    as (_ & _ & Hdelete).
  split.
  - etransitivity.
    + apply (Hcreate {[ "name" := VStr "Rex" ]} rex [mug; tea; pot; rex] rex_record);
        by_computing.
    + by_running.
  - etransitivity; [ exact (Hdelete mug) | by_running ].
Defined.

(** C10: a guest posts a body that is not JSON and is answered with the 403
    of the permission check, not with the 400 of the parse error. *)
Lemma unparsable_post_without_permission :
  json_loads (request_body (request_of guest "not json")) = None /\
  post product_view (request_of guest "not json") None start
  = (Ok denied, mkWorld shop [EvHasPerm "shop.add_product"]) /\
  status_code denied = 403 /\
  ~ (exists w', post product_view (request_of guest "not json") None start
                = (Ok bad_json, w')).
Proof.
  assert (Hpost : post product_view (request_of guest "not json") None start
                  = (Ok denied, mkWorld shop [EvHasPerm "shop.add_product"])).
  { by_running. }
  split; [ reflexivity | ]. split; [ exact Hpost | ]. split; [ reflexivity | ].
  intros (w' & Hr). rewrite Hpost in Hr. discriminate Hr.
Qed.

(** C10 (amended), on the shop: staff sends a body that is not JSON. *)
Lemma unparsable_body_rejected_witness :
  post product_view (request_of staff "not json") None start
  = (Ok bad_json, mkWorld shop [EvHasPerm "shop.add_product"; EvJsonLoads "not json"]) /\
  put product_view (request_of staff "not json") (Some "2") start
  = (Ok bad_json,
     mkWorld shop [EvGetObject "2"; EvHasPerm "shop.change_product";
                   EvJsonLoads "not json"]) /\
  status_code bad_json = 400 /\
  content bad_json = "Unable to parse JSON request body.".
Proof.
  destruct (unparsable_body_rejected product_view (request_of staff "not json")
              start eq_refl)
    as (_ & _ & Hpost & Hput & _ & _ & Hstatus & Hcontent).
  assert (Hmug : get_by_id (queryset product_view (db start)) "2" = Some mug).
  { by_computing. }
  split; [ exact (Hpost None eq_refl eq_refl) | ].
  split; [ exact (Hput "2" mug eq_refl Hmug eq_refl) | ].
  split; [ exact Hstatus | exact Hcontent ].
Defined.


(** C5, on the shop: the second page of two products holds the pot alone;
    without a [page] parameter the first page is asked for. *)
Lemma pagination_witness :
  page_param (request_of guest "") = PageInt 1 /\
  page_param (page_request "2") = PageStr "2" /\
  get_collection paged_view (page_request "2") start
  = (Ok (json_ok (PRecords [pot_name])),
     mkWorld shop [EvQuerySet; EvJsonDumps (PRecords [pot_name])]) /\
  Z.of_nat (length [pot_name]) <= 2 /\
  get_collection product_view (request_of guest "") start
  = (Ok (json_ok (PRecords [tea_record; mug_record; pot_record])),
     mkWorld shop
       [EvQuerySet; EvJsonDumps (PRecords [tea_record; mug_record; pot_record])]) /\
  get_collection paged_view (page_request "x") start
  = (Ok (HttpResponseBadRequest "Invalid `page` parameter: Not a valid integer." None),
     mkWorld shop [EvQuerySet]) /\
  get_collection paged_view (page_request "3") start
  = (Ok (HttpResponseBadRequest "Invalid `page` parameter: Out of range." None),
     mkWorld shop [EvQuerySet]).
Proof.
  destruct (pagination paged_view (page_request "2") start)
    as (_ & Hstr & _ & Hpage & _).
  destruct (pagination product_view (request_of guest "") start)
    as (Hdefault & _ & Hall & _).
  destruct (pagination paged_view (page_request "x") start)
    as (_ & _ & _ & _ & Hnot & _).
  destruct (pagination paged_view (page_request "3") start)
    as (_ & _ & _ & _ & _ & Hempty).
  assert (Hsecond : paginator_page (queryset paged_view (db start)) 2
                      (page_param (page_request "2")) = PageOk [pot]).
  { by_computing. }
  assert (Hser : serialize_all paged_view [pot] = Ok [pot_name]).
  { by_computing. }
  assert (Hrecs : serialize_all product_view (queryset product_view (db start))
                  = Ok [tea_record; mug_record; pot_record]).
  { by_computing. }
  assert (Hx : paginator_page (queryset paged_view (db start)) 2
                 (page_param (page_request "x")) = PageNotAnInteger).
  { by_computing. }
  assert (H3 : paginator_page (queryset paged_view (db start)) 2
                 (page_param (page_request "3")) = EmptyPage).
  { by_computing. }
  destruct (Hpage 2 [pot] [pot_name] eq_refl Hsecond Hser) as (Hget & _ & Hbound).
  split; [ exact (Hdefault eq_refl) | ].
  split; [ exact (Hstr "2" eq_refl) | ].
  split; [ exact Hget | ].
  split; [ exact (Hbound page_of_bounded) | ].
  split; [ exact (proj1 (Hall _ eq_refl Hrecs)) | ].
  split; [ exact (Hnot 2 eq_refl Hx) | exact (Hempty 2 eq_refl H3) ].
Defined.

(** C4, on the shop: the five operations, and a refusal. *)
Lemma five_operations_witness :
  dispatch product_view Get (request_of guest "") None start
  = (Ok (json_ok (PRecords [tea_record; mug_record; pot_record])),
     mkWorld shop
       [EvQuerySet; EvJsonDumps (PRecords [tea_record; mug_record; pot_record])]) /\
  dispatch product_view Get (request_of guest "") (Some "1") start
  = (Ok (json_ok (PRecord tea_record)),
     mkWorld shop [EvGetObject "1"; EvJsonDumps (PRecord tea_record)]) /\
  dispatch product_view Post (request_of staff body_rex) None start
  = (Ok (created product_view rex rex_record),
     mkWorld [mug; tea; pot; rex]
       [EvHasPerm "shop.add_product"; EvJsonLoads body_rex; EvForm None;
        EvPermForData {[ "name" := VStr "Rex" ]}; EvSave;
        EvJsonDumps (PRecord rex_record)]) /\
  dispatch product_view Put (request_of staff body_rex) (Some "2") start
  = (Ok (json_ok (PRecord renamed_mug_record)),
     mkWorld [renamed_mug; tea; pot]
       [EvGetObject "2"; EvHasPerm "shop.change_product"; EvJsonLoads body_rex;
        EvForm (Some mug); EvPermForData {[ "name" := VStr "Rex" ]}; EvSave;
        EvJsonDumps (PRecord renamed_mug_record)]) /\
  dispatch product_view Delete (request_of staff "") (Some "2") start
  = (Ok (HttpResponse "" None 204),
     mkWorld [tea; pot]
       [EvGetObject "2"; EvHasPerm "shop.delete_product"; EvDelete mug]) /\
  dispatch product_view Delete (request_of staff "") None start
  = (Ok (HttpResponseForbidden ""), start).
Proof.
  destruct (five_operations product_view (request_of guest "") None start)
    as (_ & _ & Hlist & _).
  destruct (five_operations product_view (request_of guest "") (Some "1") start)
    as (_ & _ & _ & Hdetail & _).
  destruct (five_operations product_view (request_of staff body_rex) None start)
    as (_ & _ & _ & _ & Hcreate & _).
  destruct (five_operations product_view (request_of staff body_rex) (Some "2") start)
    as (_ & _ & _ & _ & _ & Hupdate & _).
  destruct (five_operations product_view (request_of staff "") (Some "2") start)
    as (_ & _ & _ & _ & _ & _ & Hdelete).
  destruct (five_operations product_view (request_of staff "") None start)
    as (_ & Hrefused & _).
  split.
  { etransitivity;
      [ apply (proj2 (Hlist Get eq_refl) [tea_record; mug_record; pot_record]);
        by_computing
      | by_running ]. }
  split.
  { etransitivity;
      [ apply (Hdetail Get "1" tea tea_record); by_computing
      | by_running ]. }
  split.
  { etransitivity;
      [ apply (Hcreate Post {[ "name" := VStr "Rex" ]} rex [mug; tea; pot; rex]
                 rex_record);
        by_computing
      | by_running ]. }
  split.
  { etransitivity;
      [ apply (Hupdate Put "2" mug {[ "name" := VStr "Rex" ]} renamed_mug
                 [renamed_mug; tea; pot] renamed_mug_record);
        by_computing
      | by_running ]. }
  split.
  { etransitivity;
      [ apply (Hdelete Delete "2" mug); by_computing
      | by_running ]. }
  exact (Hrefused Delete eq_refl).
Defined.



(** * More properties of the handlers *)

Section Outcome.
Context `{Framework}.

#[local] Arguments add_object : simpl never.
#[local] Arguments update_object : simpl never.
#[local] Arguments delete_object : simpl never.
#[local] Arguments get_object_detail : simpl never.
#[local] Arguments get_collection : simpl never.

Lemma add_object_outcome v request w :
  add_object v request w
  = let '(r, d, t) := submit_outcome v request None (db w) in
    (r, mkWorld d (trace w ++ t)).
Proof.
  unfold submit_outcome.
  destruct (json_loads (request_body request)) as [data | ] eqn:Hj;
    [ | by apply add_object_unparsable ].
  destruct (is_valid (bound_form v data None)) eqn:Hv;
    [ | by apply add_object_invalid ].
  destruct (save (bound_form v data None) (db w)) as [obj d'] eqn:Hs. simpl.
  destruct (serialize v obj (shown v)) as [rec | e] eqn:Hser.
  - by rewrite (add_object_created _ _ _ _ _ _ _ Hj Hv Hs Hser).
  - rewrite (add_object_valid _ _ _ _ _ _ Hj Hv Hs). unfold bind.
    by rewrite (get_object_detail_raise _ _ _ _ _ Hser).
Qed.

Lemma update_object_outcome v request obj w :
  update_object v request obj w
  = let '(r, d, t) := submit_outcome v request (Some obj) (db w) in
    (r, mkWorld d (trace w ++ t)).
Proof.
  unfold submit_outcome.
  destruct (json_loads (request_body request)) as [data | ] eqn:Hj;
    [ | by apply update_object_unparsable ].
  destruct (is_valid (bound_form v data (Some obj))) eqn:Hv;
    [ | by apply update_object_invalid ].
  destruct (save (bound_form v data (Some obj)) (db w)) as [o d'] eqn:Hs. simpl.
  destruct (serialize v o (shown v)) as [rec | e] eqn:Hser.
  - by rewrite (update_object_updated _ _ _ _ _ _ _ _ Hj Hv Hs Hser).
  - rewrite (update_object_valid _ _ _ _ _ _ _ Hj Hv Hs).
    by rewrite (get_object_detail_raise _ _ _ _ _ Hser).
Qed.

Lemma get_collection_outcome v request w :
  get_collection v request w
  = let '(r, d, t) := collection_outcome v request (db w) in
    (r, mkWorld d (trace w ++ t)).
Proof.
  assert (Hrender : forall objs,
            render_collection v objs (mkWorld (db w) (trace w ++ [EvQuerySet]))
            = let '(r, d, t) := render_outcome v objs (db w) in
              (r, mkWorld d (trace w ++ t))).
  { intros objs. unfold render_outcome.
    destruct (serialize_all v objs) as [recs | e] eqn:Hs.
    - rewrite (render_collection_ok _ _ _ _ Hs). simpl. by rewrite <- app_assoc.
    - by rewrite (render_collection_raise _ _ _ _ Hs). }
  rewrite get_collection_unfold. unfold collection_outcome. simpl.
  destruct (paginate_by v) as [n | ]; [ | apply Hrender ].
  by destruct (paginator_page _ _ _); [ apply Hrender | | ].
Qed.

(** The handlers compute the outcome written out in [outcome]: the answer
    and the new database depend on the database alone, and the calls are
    appended to the trace. *)
Lemma dispatch_outcome v m request id w :
  dispatch v m request id w
  = let '(r, d, t) := outcome v m request id (db w) in
    (r, mkWorld d (trace w ++ t)).
Proof.
  assert (Hsame : (Ok (HttpResponseForbidden ""), w)
                  = (Ok (HttpResponseForbidden ""),
                     mkWorld (db w) (trace w ++ []))).
  { rewrite app_nil_r. by destruct w. }
  assert (Hcoll : truthy_id id = false ->
            dispatch v m request id w
            = let '(r, d, t) := on_collection v m request (db w) in
              (r, mkWorld d (trace w ++ t))).
  { intros Hid. destruct m; unfold dispatch, on_collection.
    - rewrite (get_without_id _ _ _ _ Hid). apply get_collection_outcome.
    - rewrite (post_checked _ _ _ _ Hid). simpl.
      destruct (has_perm (user request) (perm_string v "add")); [ | done ].
      rewrite add_object_outcome. simpl.
      destruct (submit_outcome v request None (db w)) as [[r d] t].
      by rewrite <- app_assoc.
    - by rewrite (put_without_id _ _ _ _ Hid).
    - by rewrite (delete_without_id _ _ _ _ Hid). }
  unfold outcome. destruct id as [i | ]; [ | by apply Hcoll ].
  destruct (truthy_id (Some i)) eqn:Hid; [ | by apply Hcoll ].
  destruct m; unfold dispatch.
  - destruct (get_by_id (queryset v (db w)) i) as [obj | ] eqn:Hget.
    + rewrite (get_fetched _ _ _ _ _ Hid Hget). unfold on_object.
      destruct (serialize v obj (shown v)) as [rec | e] eqn:Hs.
      * rewrite (get_object_detail_ok _ _ _ _ _ Hs). simpl. by rewrite <- app_assoc.
      * by rewrite (get_object_detail_raise _ _ _ _ _ Hs).
    + by destruct (missing_object v request i w Hid Hget) as (-> & _).
  - by rewrite (post_with_id _ _ _ _ Hid).
  - destruct (get_by_id (queryset v (db w)) i) as [obj | ] eqn:Hget.
    + rewrite (put_fetched _ _ _ _ _ Hid Hget). unfold on_object. simpl.
      destruct (has_perm (user request) (perm_string v "change")); [ | done ].
      rewrite update_object_outcome. simpl.
      destruct (submit_outcome v request (Some obj) (db w)) as [[r d] t].
      by rewrite <- app_assoc.
    + by destruct (missing_object v request i w Hid Hget) as (_ & -> & _).
  - destruct (get_by_id (queryset v (db w)) i) as [obj | ] eqn:Hget.
    + rewrite (delete_fetched _ _ _ _ _ Hid Hget). unfold on_object. simpl.
      destruct (has_perm (user request) (perm_string v "delete")); [ | done ].
      rewrite delete_object_run. simpl. by rewrite <- app_assoc.
    + by destruct (missing_object v request i w Hid Hget) as (_ & _ & ->).
Qed.

(** The error of a failed serialization is an [AttributeError] or a
    [TypeError], never [Http404]. *)
Lemma serialize_not_404 v obj fs : serialize v obj fs <> Raise Http404.
Proof.
  unfold serialize.
  assert (Hloop : forall st, serialize_loop v obj fs st <> Raise Http404).
  { induction fs as [ | f fs IH ]; intros st; simpl; [ done | ].
    destruct st as [data rem]. destruct f as [name g | name]; simpl; [ apply IH | ].
    destruct (view_getattr v name) as [[m | ] | ]; simpl; [ apply IH | done | ].
    destruct (obj_getattr obj name) as [[r | x] | ]; simpl; [ apply IH | apply IH | done ]. }
  specialize (Hloop (∅, [])).
  destruct (serialize_loop v obj fs (∅, [])) as [[data rem] | e]; [ done | ].
  intros [= ->]. by apply Hloop.
Qed.

Lemma serialize_all_not_404 v objs : serialize_all v objs <> Raise Http404.
Proof.
  induction objs as [ | obj objs IH ]; simpl; [ done | ].
  pose proof (serialize_not_404 v obj (FName "id" :: display_fields v)) as Hs.
  destruct (serialize v obj (FName "id" :: display_fields v)) as [rec | e];
    [ | by intros [= ->] ].
  destruct (serialize_all v objs) as [recs | e]; [ done | ].
  intros [= ->]. by apply IH.
Qed.

(** Splits a statement about [outcome] into the cases of the handlers. *)
Ltac outcome_cases :=
  unfold outcome, on_object, on_collection, collection_outcome, render_outcome,
    submit_outcome in *;
  repeat case_match; simplify_eq; simpl in *.

(** X1: a GET, with or without id, leaves the database as it is and calls
    nothing but the object fetch, the queryset and [json_dumps]: it checks no
    permission, decodes no body, builds no form. *)
Theorem get_is_read_only (v : View) (request : Request) (id : option string)
    (w : World) :
  exists t, (get v request id w).2 = mkWorld (db w) (trace w ++ t) /\
            Forall read_event t.
Proof.
  change (get v request id w) with (dispatch v Get request id w).
  rewrite dispatch_outcome.
  destruct (outcome v Get request id (db w)) as [[r d] t] eqn:Ho. simpl.
  exists t. outcome_cases; (split; [ done | ]); by repeat constructor.
Qed.

(** X2: the answer to a GET depends on the request through the [page]
    parameter alone, and not even on that when the view does not paginate:
    the user and the body are never looked at. *)
Theorem get_ignores_user_and_body (v : View) (request request' : Request)
    (id : option string) (w : World) :
  paginate_by v = None \/ page_param request = page_param request' ->
  get v request id w = get v request' id w.
Proof.
  intros Hpage.
  change (dispatch v Get request id w = dispatch v Get request' id w).
  rewrite !dispatch_outcome.
  assert (outcome v Get request id (db w) = outcome v Get request' id (db w)) as ->;
    [ | done ].
  unfold outcome, on_object, on_collection, collection_outcome.
  destruct Hpage as [-> | ->]; done.
Qed.

(** X3: a POST, PUT or DELETE depends on the request through the text of
    its body (read from [body], or from [raw_post_data] when the request has
    no [body]) and the user's permission for the action alone. *)
Theorem write_depends_on_body_and_permission (v : View) (m : verb) (action : string)
    (request request' : Request) (id : option string) (w : World) :
  verb_action m = Some action ->
  request_body request = request_body request' ->
  has_perm (user request) (perm_string v action)
  = has_perm (user request') (perm_string v action) ->
  dispatch v m request id w = dispatch v m request' id w.
Proof.
  intros Hm Hbody Hperm. rewrite !dispatch_outcome.
  assert (outcome v m request id (db w) = outcome v m request' id (db w)) as ->;
    [ | done ].
  destruct m; simpl in Hm; simplify_eq;
    unfold outcome, on_object, on_collection, submit_outcome; cbv zeta;
    by rewrite ?Hbody, ?Hperm.
Qed.

(** X4: the status codes of the answers, by method: 200 or 400 for GET;
    201, 400 or 403 for POST; 200, 400 or 403 for PUT; 204 or 403 for DELETE.
    A 201 carries exactly one header, [Location]; every other answer carries
    none; a 204 has an empty body. *)
Theorem answer_codes (v : View) (m : verb) (request : Request) (id : option string)
    (w w' : World) (r : Response) :
  dispatch v m request id w = (Ok r, w') ->
  match m with
  | Get => status_code r = 200 \/ status_code r = 400
  | Post => status_code r = 201 \/ status_code r = 400 \/ status_code r = 403
  | Put => status_code r = 200 \/ status_code r = 400 \/ status_code r = 403
  | Delete => status_code r = 204 \/ status_code r = 403
  end /\
  (status_code r = 201 -> exists url, headers r = {[ "Location" := url ]}) /\
  (status_code r <> 201 -> headers r = ∅) /\
  (status_code r = 204 -> content r = "").
Proof.
  intros Hr. rewrite dispatch_outcome in Hr.
  destruct (outcome v m request id (db w)) as [[r0 d] t] eqn:Ho.
  injection Hr as -> _.
  outcome_cases;
    (split; [ tauto | ]);
    (split; [ first [ done | by eexists ] | ]);
    (split; [ first [ done | intros Hn; by destruct Hn ] | done ]).
Qed.

(** X5: an answer of status 400 or 403 leaves the database unchanged, and
    so does [Http404], which is raised for no other reason than a GET, PUT or
    DELETE whose id matches no object of the queryset. *)
Theorem refusals_leave_database (v : View) (m : verb) (request : Request)
    (id : option string) (w w' : World) :
  (forall r, dispatch v m request id w = (Ok r, w') ->
     status_code r = 400 \/ status_code r = 403 -> db w' = db w) /\
  (dispatch v m request id w = (Raise Http404, w') ->
     db w' = db w /\ m <> Post /\
     exists i, id = Some i /\ truthy_id id = true /\
               get_by_id (queryset v (db w)) i = None).
Proof.
  rewrite dispatch_outcome.
  destruct (outcome v m request id (db w)) as [[r0 d] t] eqn:Ho. split.
  - intros r [= -> <-] Hst. simpl.
    outcome_cases; first [ done | by destruct Hst ].
  - intros [= -> <-]. simpl.
    outcome_cases;
      try (exfalso; eapply serialize_not_404; eassumption);
      try (exfalso; eapply serialize_all_not_404; eassumption);
      (split; [ done | ]); (split; [ done | ]); by eexists.
Qed.

(** X6: [form.save()] comes before the saved object is serialized and is
    not undone: when the serialization of the saved object raises, the
    error leaves [add_object] or [update_object] and the database is the
    saved one. *)
Theorem saved_despite_error (v : View) (request : Request) (instance : option Obj)
    (w : World) (data : Json) (e : exn) :
  let submit := match instance with
                | None => add_object v request
                | Some obj => update_object v request obj
                end in
  let form := bound_form v data instance in
  json_loads (request_body request) = Some data ->
  is_valid form = true ->
  serialize v (save form (db w)).1 (FName "id" :: display_fields v) = Raise e ->
  submit w
  = (Raise e,
     mkWorld (save form (db w)).2
       (trace w ++ [EvJsonLoads (request_body request); EvForm instance;
                    EvPermForData (cleaned_data form); EvSave])).
Proof.
  intros submit form Hj Hv Hs. subst submit form.
  destruct instance as [obj | ].
  - rewrite update_object_outcome. unfold submit_outcome.
    rewrite Hj, Hv. unfold shown. by rewrite Hs.
  - rewrite add_object_outcome. unfold submit_outcome.
    rewrite Hj, Hv. unfold shown. by rewrite Hs.
Qed.

(** X7: the database changes in three ways only, each behind the permission
    of its action: a POST to the collection, with a body that decodes and a
    form that validates, leaves what [form.save()] leaves; a PUT with the id
    of an object, likewise, what the save of the form bound to that object
    leaves; a DELETE with the id of an object, what the deletion of that
    object leaves.  A GET changes nothing. *)
Theorem database_changes (v : View) (m : verb) (request : Request)
    (id : option string) (w : World) :
  db (dispatch v m request id w).2 <> db w ->
  exists action,
    verb_action m = Some action /\
    has_perm (user request) (perm_string v action) = true /\
    match m with
    | Get => False
    | Post =>
        truthy_id id = false /\
        exists data,
          json_loads (request_body request) = Some data /\
          is_valid (bound_form v data None) = true /\
          db (dispatch v m request id w).2 = (save (bound_form v data None) (db w)).2
    | Put =>
        exists i old data,
          id = Some i /\ truthy_id id = true /\
          get_by_id (queryset v (db w)) i = Some old /\
          json_loads (request_body request) = Some data /\
          is_valid (bound_form v data (Some old)) = true /\
          db (dispatch v m request id w).2
          = (save (bound_form v data (Some old)) (db w)).2
    | Delete =>
        exists i obj,
          id = Some i /\ truthy_id id = true /\
          get_by_id (queryset v (db w)) i = Some obj /\
          db (dispatch v m request id w).2 = delete_obj obj (db w)
    end.
Proof.
  rewrite dispatch_outcome.
  destruct (outcome v m request id (db w)) as [[r0 d] t] eqn:Ho. simpl.
  intros Hne.
  outcome_cases; try done;
    eexists; (split; [ reflexivity | ]); (split; [ done | ]);
    first [ by eexists _, _, _ | by eexists _, _ | by split; [ | eexists ] ].
Qed.

End Outcome.

(** * More properties of the serialization *)

Section Serialization.
Context `{Framework}.

Lemma foldl_insert_dom (l : list (string * value)) (d : record) k :
  is_Some (foldl (fun d p => <[p.1 := p.2]> d) d l !! k)
  <-> is_Some (d !! k) \/ k ∈ l.*1.
Proof.
  revert d. induction l as [ | [k' y] l IH ]; intros d; simpl.
  - split; [ by left | ]. intros [Hd | Hin]; [ done | by apply elem_of_nil in Hin ].
  - rewrite IH, lookup_insert_is_Some, elem_of_cons. split.
    + intros [[-> | [_ Hd]] | Hin]; [ right; by left | by left | right; by right ].
    + intros [Hd | [-> | Hin]].
      * left. destruct (decide (k' = k)); [ by left | right; by split ].
      * left. by left.
      * by right.
Qed.

Lemma add_properties_dom (data : record) rem k :
  is_Some (add_properties data rem !! k) <-> is_Some (data !! k) \/ k ∈ rem.*1.
Proof.
  unfold add_properties. rewrite foldl_insert_dom. split.
  - intros [Hd | Hin]; [ by left | right ].
    apply list_elem_of_fmap in Hin as (p & -> & Hp).
    apply list_elem_of_In, filter_In in Hp as [Hp _].
    by apply list_elem_of_fmap_2, list_elem_of_In.
  - intros [Hd | Hin]; [ by left | ].
    destruct (data !! k) as [x | ] eqn:Hk; [ left; by eexists | right ].
    apply list_elem_of_fmap in Hin as (p & -> & Hp).
    apply list_elem_of_fmap_2, list_elem_of_In, filter_In.
    split; [ by apply list_elem_of_In | by rewrite Hk ].
Qed.

(** The loop gives every field of the list a key of [data] or an entry of
    [remaining], and adds no other. *)
Lemma serialize_loop_dom v obj fs data rem data' rem' k :
  serialize_loop v obj fs (data, rem) = Ok (data', rem') ->
  (is_Some (data' !! k) \/ k ∈ rem'.*1)
  <-> (is_Some (data !! k) \/ k ∈ rem.*1) \/ k ∈ field_name <$> fs.
Proof.
  revert data rem. induction fs as [ | f fs IH ]; intros data rem; simpl.
  - intros [= <- <-]. split; [ by left | ].
    intros [Hk | Hin]; [ done | by apply elem_of_nil in Hin ].
  - assert (Hkey : forall name x,
              serialize_loop v obj fs (<[name := x]> data, rem) = Ok (data', rem') ->
              field_name f = name ->
              (is_Some (data' !! k) \/ k ∈ rem'.*1)
              <-> (is_Some (data !! k) \/ k ∈ rem.*1) \/ k ∈ field_name f :: (field_name <$> fs)).
    { intros name x Hl Hf. rewrite (IH _ _ Hl), lookup_insert_is_Some, elem_of_cons, Hf.
      split.
      - intros [[[-> | [_ Hd]] | Hr] | Hin]; [ right; by left | left; by left | left; by right | right; by right ].
      - intros [[Hd | Hr] | [-> | Hin]].
        + left. left. destruct (decide (name = k)); [ by left | right; by split ].
        + left. by right.
        + left. left. by left.
        + by right. }
    destruct f as [name g | name]; simpl; [ intros Hl; by eapply Hkey | ].
    destruct (view_getattr v name) as [[m | ] | ]; simpl;
      [ intros Hl; by eapply (Hkey name) | done | ].
    destruct (obj_getattr obj name) as [[r | x] | ]; simpl;
      [ intros Hl; by eapply (Hkey name) | | done ].
    intros Hl. rewrite (IH _ _ Hl), fmap_app, elem_of_app, elem_of_cons. simpl.
    rewrite elem_of_cons, elem_of_nil. tauto.
Qed.

(** X8: when the serializer emits selected fields only, the keys of a
    serialized record are exactly the names of the requested fields, the
    [__name__] of a callable entry and the name itself otherwise: no field
    is dropped and none is added. *)
Theorem serialize_keys (v : View) (obj : Obj) (fs : list field) (rec : record) :
  (forall names k, is_Some (all_fields_serializer obj names !! k) -> k ∈ names) ->
  serialize v obj fs = Ok rec ->
  forall k, is_Some (rec !! k) <-> k ∈ field_name <$> fs.
Proof.
  intros Hkeys Hs k. unfold serialize in Hs.
  destruct (serialize_loop v obj fs (∅, [])) as [[data rem] | e] eqn:Hl; [ | done ].
  injection Hs as <-.
  assert (Hdom : (is_Some (data !! k) \/ k ∈ rem.*1) <-> k ∈ field_name <$> fs).
  { rewrite (serialize_loop_dom _ _ _ _ _ _ _ k Hl), lookup_empty. split.
    - intros [[Hd | Hin] | Hin]; [ by destruct Hd | by apply elem_of_nil in Hin | done ].
    - intros Hin. by right. }
  rewrite add_properties_dom, lookup_union_is_Some, <- Hdom. split.
  - intros [[Hser | Hd] | Hr]; [ right; by apply Hkeys | by left | by right ].
  - intros [Hd | Hr]; [ left; by right | by right ].
Qed.



End Serialization.

(** * More properties of the JSON encoding *)

Section Encoding.
Context `{Framework}.

(** X13: keyword options of [json_dumps] (other than the data and the
    encoder class, which the call fixes) win over the defaults
    [sort_keys=True] and [indent=2], which hold where no option is given;
    but [use_decimal] is forced to [False] whenever the version test of the
    JSON library succeeds, whatever the caller passes, and is left to the
    caller otherwise. *)
Theorem json_dumps_options (p : payload) (options : gmap string value) :
  options !! "cls" = None ->
  options !! "obj" = None ->
  exists params : gmap string value,
    json_dumps p options = json_dumps_impl p DjangoJSONEncoder params /\
    (forall k x, k <> "use_decimal" -> options !! k = Some x -> params !! k = Some x) /\
    (options !! "sort_keys" = None -> params !! "sort_keys" = Some (VBool true)) /\
    (options !! "indent" = None -> params !! "indent" = Some (VInt 2)) /\
    params !! "use_decimal"
    = (if list_ge (split_dots json_version) ["2"; "1"; "3"]
       then Some (VBool false)
       else options !! "use_decimal").
Proof.
  intros _ _. unfold json_dumps.
  destruct (list_ge (split_dots json_version) ["2"; "1"; "3"]);
    eexists; (split; [ reflexivity | ]).
  - split; [ | split; [ | split ] ].
    + intros k x Hk Ho. rewrite lookup_union_r; [ by apply lookup_union_Some_l | ].
      by apply lookup_singleton_ne.
    + intros Ho. rewrite lookup_union_r; [ | done ]. by rewrite lookup_union_r.
    + intros Ho. rewrite lookup_union_r; [ | done ]. by rewrite lookup_union_r.
    + by apply lookup_union_Some_l.
  - split; [ | split; [ | split ] ].
    + intros k x _ Ho. by apply lookup_union_Some_l.
    + intros Ho. by rewrite lookup_union_r.
    + intros Ho. by rewrite lookup_union_r.
    + destruct (options !! "use_decimal") as [x | ] eqn:Ho.
      * by apply lookup_union_Some_l.
      * by rewrite lookup_union_r.
Qed.

(** The first component of a split version starts with the first character. *)
Lemma split_dots_aux_head (s acc : string) :
  exists p rest, split_dots_aux acc s = String.rev_app acc p :: rest.
Proof.
  revert acc. induction s as [ | c s IH ]; intros acc; simpl.
  - by exists EmptyString, [].
  - destruct (Ascii.eqb c "."); [ by eexists EmptyString, _ | ].
    destruct (IH (String c acc)) as (p & rest & ->). by exists (String c p), rest.
Qed.

(** X14: the version test of [json_dumps] compares the components of the
    version as strings, not as numbers: for every version whose first
    character sorts before the digit 2 (version 1.9, but also 10.0.0), and
    for the empty version, [use_decimal] is not passed to [json.dumps]. *)
Theorem version_test_is_lexicographic (p : payload) (options : gmap string value) :
  match json_version with
  | EmptyString => True
  | String c _ => Ascii.compare c "2" = Lt
  end ->
  json_dumps p options
  = json_dumps_impl p DjangoJSONEncoder
      (options ∪ {[ "sort_keys" := VBool true; "indent" := VInt 2 ]}).
Proof.
  intros Hver. unfold json_dumps.
  assert (list_ge (split_dots json_version) ["2"; "1"; "3"] = false) as ->; [ | done ].
  unfold split_dots. destruct json_version as [ | c rest ]; [ done | ]. simpl.
  destruct (Ascii.eqb c ".") eqn:Hdot; [ done | ].
  destruct (split_dots_aux_head rest (String c EmptyString)) as (q & more & ->).
  simpl. by rewrite Hver.
Qed.

End Encoding.

(** * The further properties on the sample shop *)

(** X2, on the shop: on a view that does not paginate, the collection is
    the same for staff with a body and for a guest asking for page 9. *)
Lemma get_ignores_user_and_body_witness :
  get product_view (request_of staff body_rex) None start
  = get product_view (page_request "9") None start.
Proof.
  apply get_ignores_user_and_body. left. reflexivity.
Defined.

(** X3, on the shop: the creation of Rex through a request of Django 1.3
    is the creation through a request with a [body]. *)
Lemma write_depends_on_body_and_permission_witness :
  dispatch product_view Post (legacy_request staff body_rex) None start
  = dispatch product_view Post (request_of staff body_rex) None start.
Proof.
  apply (write_depends_on_body_and_permission product_view Post "add");
    reflexivity.
Defined.

(** X4, on the shop: the deletion of the mug by staff is a 204 without
    header or body. *)
Lemma answer_codes_witness :
  (status_code (HttpResponse "" None 204) = 204 \/
   status_code (HttpResponse "" None 204) = 403) /\
  (status_code (HttpResponse "" None 204) = 201 ->
   exists url, headers (HttpResponse "" None 204) = {[ "Location" := url ]}) /\
  (status_code (HttpResponse "" None 204) <> 201 ->
   headers (HttpResponse "" None 204) = ∅) /\
  (status_code (HttpResponse "" None 204) = 204 ->
   content (HttpResponse "" None 204) = "").
Proof.
  apply (answer_codes product_view Delete (request_of staff "") (Some "2") start
           (@mkWorld framework [tea; pot]
              [EvGetObject "2"; EvHasPerm "shop.delete_product"; EvDelete mug])).
  by_running.
Defined.

(** X5, on the shop: the refusal of a guest's deletion and the 404 for
    product 7 leave the shop as it is. *)
Lemma refusals_leave_database_witness :
  db (@mkWorld framework shop [EvGetObject "2"; EvHasPerm "shop.delete_product"])
  = db start /\
  db (@mkWorld framework shop [EvGetObject "7"]) = db start /\
  Put <> Post /\
  exists i, Some "7" = Some i /\ truthy_id (Some "7") = true /\
            get_by_id (queryset product_view (db start)) i = None.
Proof.
  destruct (refusals_leave_database product_view Delete (request_of guest "")
              (Some "2") start
              (@mkWorld framework shop
                 [EvGetObject "2"; EvHasPerm "shop.delete_product"]))
    as [Hrefused _].
  destruct (refusals_leave_database product_view Put (request_of staff body_rex)
              (Some "7") start (@mkWorld framework shop [EvGetObject "7"]))
    as [_ Hmissing].
  split.
  - apply (Hrefused denied); [ by_running | by right ].
  - apply Hmissing. by_running.
Defined.

(** X6, on the shop: a view that shows a colour saves Rex and then fails
    to serialize him; Rex stays in the shop. *)
Lemma saved_despite_error_witness :
  add_object colour_view (request_of staff body_rex) start
  = (Raise (AttributeError "Invalid field: colour"),
     mkWorld [mug; tea; pot; rex]
       [EvJsonLoads body_rex; EvForm None; EvPermForData {[ "name" := VStr "Rex" ]};
        EvSave]).
Proof.
  etransitivity;
    [ apply (saved_despite_error colour_view (request_of staff body_rex) None start
               {[ "name" := VStr "Rex" ]}
               (AttributeError "Invalid field: colour"));
      by_computing
    | by_running ].
Defined.

(** X7, on the shop: the deletion of the mug by staff changes the shop. *)
Lemma database_changes_witness :
  exists action,
    verb_action Delete = Some action /\
    has_perm (user (request_of staff "")) (perm_string product_view action) = true /\
    exists i obj,
      Some "2" = Some i /\ truthy_id (Some "2") = true /\
      get_by_id (queryset product_view (db start)) i = Some obj /\
      db (dispatch product_view Delete (request_of staff "") (Some "2") start).2
      = delete_obj obj (db start).
Proof.
  apply (database_changes product_view Delete (request_of staff "") (Some "2") start).
  intros Heq. apply (f_equal (@length Obj)) in Heq. vm_compute in Heq.
  discriminate Heq.
Defined.

(** X8, on the shop: the record of the tea has the keys of the fields of
    [product_view], and no [ordering]. *)
Lemma serialize_keys_witness :
  is_Some (tea_record !! "is_cheap") /\ ~ is_Some (tea_record !! "ordering").
Proof.
  assert (Hs : serialize product_view tea (shown product_view) = Ok tea_record).
  { by_computing. }
  pose proof (@serialize_keys framework product_view tea (shown product_view)
                tea_record (stored_fields_selected tea) Hs) as Hkeys.
  assert (Hno : "ordering" ∉ field_name <$> shown product_view) by not_listed.
  split.
  - apply Hkeys. by_computing_elem.
  - intros Hin. apply Hno, Hkeys, Hin.
Defined.



(** X13, on the shop: a caller that turns the sorting off gets it off and
    keeps the indent; the library of the sample framework predates 2.1.3, so
    no [use_decimal] is passed. *)
Lemma json_dumps_options_witness :
  exists params : gmap string value,
    json_dumps (PRecord tea_record) {[ "sort_keys" := VBool false ]}
    = json_dumps_impl (PRecord tea_record) DjangoJSONEncoder params /\
    params !! "sort_keys" = Some (VBool false) /\
    params !! "indent" = Some (VInt 2) /\
    params !! "use_decimal" = None.
Proof.
  destruct (@json_dumps_options framework (PRecord tea_record)
              {[ "sort_keys" := VBool false ]})
    as (params & Heq & Hover & _ & Hindent & Hdecimal);
    [ by_computing | by_computing | ].
  exists params. split; [ exact Heq | ].
  split; [ apply Hover; [ discriminate | reflexivity ] | ].
  split; [ apply Hindent; reflexivity | ].
  rewrite Hdecimal. by_computing.
Defined.

(** X14, on the sample framework with a JSON library of version 10.0.0:
    the version is taken for older than 2.1.3. *)
Lemma version_test_is_lexicographic_witness :
  @json_dumps (framework_with_json "10.0.0") (PRecord tea_record) ∅
  = render (PRecord tea_record) DjangoJSONEncoder
      (∅ ∪ {[ "sort_keys" := VBool true; "indent" := VInt 2 ]}).
Proof.
  apply (@version_test_is_lexicographic (framework_with_json "10.0.0")).
  reflexivity.
Defined.

(** * Reading back what was written *)

Section ReadBack.
Context `{Framework}.

(** X15: the body of the answer to a creation or an update is the body a
    GET of the saved object returns right after, as long as the lookup by id
    finds the saved object: both are the JSON dump of the same record, and
    the GET leaves the database as the write left it. *)
Theorem detail_after_write (v : View) (request request' : Request)
    (instance : option Obj) (w : World) (data : Json) (obj : Obj) (d' : DB)
    (rec : record) (i : string) :
  let submit := match instance with
                | None => add_object v request
                | Some old => update_object v request old
                end in
  json_loads (request_body request) = Some data ->
  is_valid (bound_form v data instance) = true ->
  save (bound_form v data instance) (db w) = (obj, d') ->
  serialize v obj (FName "id" :: display_fields v) = Ok rec ->
  truthy_id (Some i) = true ->
  get_by_id (queryset v d') i = Some obj ->
  exists r w' r' w'',
    submit w = (Ok r, w') /\
    get v request' (Some i) w' = (Ok r', w'') /\
    content r' = content r /\
    content_type r' = content_type r /\
    status_code r' = 200 /\
    db w'' = d'.
Proof.
  intros submit Hj Hv Hs Hser Hid Hget. subst submit.
  destruct instance as [old | ].
  - rewrite (update_object_updated _ _ _ _ _ _ _ _ Hj Hv Hs Hser).
    eexists _, _, _, _. split; [ reflexivity | ].
    rewrite (get_fetched _ _ _ obj _ Hid); [ | exact Hget ].
    by rewrite (get_object_detail_ok _ _ _ _ _ Hser).
  - rewrite (add_object_created _ _ _ _ _ _ _ Hj Hv Hs Hser).
    eexists _, _, _, _. split; [ reflexivity | ].
    rewrite (get_fetched _ _ _ obj _ Hid); [ | exact Hget ].
    by rewrite (get_object_detail_ok _ _ _ _ _ Hser).
Qed.

End ReadBack.

(** X15, on the shop: the answer to the creation of Rex and the detail of
    product 4 right after have the same body. *)
Lemma detail_after_write_witness :
  exists r w' r' w'',
    add_object product_view (request_of staff body_rex) start = (Ok r, w') /\
    get product_view (request_of guest "") (Some "4") w' = (Ok r', w'') /\
    content r' = content r /\
    content_type r' = content_type r /\
    status_code r' = 200 /\
    db w'' = [mug; tea; pot; rex].
Proof.
  apply (detail_after_write product_view (request_of staff body_rex)
           (request_of guest "") None start {[ "name" := VStr "Rex" ]} rex
           [mug; tea; pot; rex] rex_record "4");
    by_computing.
Defined.

(** * A collection is served whole or not at all *)

Section Listing.
Context `{Framework}.

(** The list comprehension stops at the first object that does not
    serialize, with the error of that object. *)
Lemma serialize_all_first_error v objs e :
  serialize_all v objs = Raise e ->
  exists pre obj post,
    objs = (pre ++ obj :: post)%list /\
    Forall (fun o => exists rec, serialize v o (shown v) = Ok rec) pre /\
    serialize v obj (shown v) = Raise e.
Proof.
  induction objs as [ | obj objs IH ]; simpl; [ done | ].
  fold (shown v). destruct (serialize v obj (shown v)) as [rec | e'] eqn:Hs.
  - destruct (serialize_all v objs) as [rs | e'] eqn:Hall; [ done | ].
    intros [= ->]. destruct (IH eq_refl) as (pre & o & post & -> & Hpre & Ho).
    exists (obj :: pre), o, post. split; [ done | ]. split; [ | done ].
    constructor; [ by exists rec | done ].
  - intros [= ->]. by exists [], obj, objs.
Qed.

(** X16: the GET of a collection answers 200 as soon as every object of
    the collection (the queryset, or its page) serializes; there is no
    partial list: when it raises, the error is that of the first object, in
    the order of the collection, that does not serialize, every object
    before it serializes, and nothing but the queryset has been called. *)
Theorem collection_whole_or_first_error (v : View) (request : Request) (w : World)
    (objs : list Obj) :
  match paginate_by v with
  | None => objs = queryset v (db w)
  | Some n => paginator_page (queryset v (db w)) n (page_param request) = PageOk objs
  end ->
  ((forall obj, obj ∈ objs ->
      exists rec, serialize v obj (FName "id" :: display_fields v) = Ok rec) ->
   exists r w', get v request None w = (Ok r, w') /\ status_code r = 200) /\
  (forall e w', get v request None w = (Raise e, w') ->
     exists pre obj post,
       objs = (pre ++ obj :: post)%list /\
       (forall o, o ∈ pre ->
          exists rec, serialize v o (FName "id" :: display_fields v) = Ok rec) /\
       serialize v obj (FName "id" :: display_fields v) = Raise e /\
       w' = mkWorld (db w) (trace w ++ [EvQuerySet])).
Proof.
  intros Hsel. fold (shown v).
  assert (Hget : get v request None w
                 = render_collection v objs (mkWorld (db w) (trace w ++ [EvQuerySet]))).
  { rewrite (get_without_id v request None w eq_refl), get_collection_unfold. simpl.
    destruct (paginate_by v) as [n | ]; [ by rewrite Hsel | by subst objs ]. }
  rewrite Hget. clear Hget Hsel.
  destruct (serialize_all v objs) as [recs | e0] eqn:Hall.
  - rewrite (render_collection_ok _ _ _ _ Hall). split.
    + intros _. by eexists _, _.
    + intros e w' [=].
  - rewrite (render_collection_raise _ _ _ _ Hall).
    destruct (serialize_all_first_error _ _ _ Hall) as (pre & obj & post & -> & Hpre & Ho).
    split.
    + intros Hall_ok. destruct (Hall_ok obj) as [rec Hrec].
      * apply elem_of_app. right. apply list_elem_of_here.
      * by rewrite Hrec in Ho.
    + intros e w' [= <- <-]. exists pre, obj, post. split; [ done | ].
      split; [ | done ]. intros o Ho'. by apply (proj1 (Forall_forall _ _) Hpre).
Qed.

End Listing.

(** X16, on the shop: under [colour_view] the listing fails on the mug, the
    first product, with the error of its colour. *)
Lemma collection_whole_or_first_error_witness :
  exists pre obj post,
    [mug; tea; pot] = (pre ++ obj :: post)%list /\
    (forall o, o ∈ pre ->
       exists rec, serialize colour_view o (FName "id" :: display_fields colour_view)
                   = Ok rec) /\
    serialize colour_view obj (FName "id" :: display_fields colour_view)
    = Raise (AttributeError "Invalid field: colour") /\
    @mkWorld framework shop [EvQuerySet] = mkWorld (db start) (trace start ++ [EvQuerySet]).
Proof.
  destruct (collection_whole_or_first_error colour_view (request_of guest "") start
              [mug; tea; pot]) as [_ Hraise]; [ by_computing | ].
  apply Hraise. by_running.
Defined.
